(** * attiny_watchdog: the firmware's register file, tick engine and
      escalation ladder, embedded as state-passing functions over the
      microcontroller's globals and the PORTA / Wire peripherals. *)

From Stdlib Require Import ZArith List Bool Lia.
From Stdlib Require Ascii String.
Import ListNotations.
Local Open Scope Z_scope.

(** ** Constants of the firmware *)

Definition FW_VERSION : Z := 0x10.

Definition PORTA_PIN_RESET : Z := Z.shiftl 1 3.
Definition PORTA_PIN_ALERT : Z := Z.shiftl 1 6.
Definition PORTA_PIN_POWERCYCLE : Z := Z.shiftl 1 7.

Definition I2C_SLAVE_ADDR : Z := 0x32.
Definition WDT_TICK_INTERVAL_MSEC : Z := 250.

Definition REG_VERSION : Z := 0.
Definition REG_CONFIG : Z := 1.
Definition REG_WDT : Z := 2.

Definition CONFIG_ENABLE_RESET : Z := Z.shiftl 1 0.
Definition CONFIG_ENABLE_POWERCYCLE : Z := Z.shiftl 1 1.
Definition CONFIG_ENABLE_ALERT : Z := Z.shiftl 1 2.

(** Conversion to [uint8_t]: every store to an 8-bit object keeps the low
    eight bits. *)
Definition u8 (z : Z) : Z := z mod 256.

(** ** Machine state *)

(** What the outside world can see of a handler: stores to PORTA.OUT and
    busy-wait delays, in program order. *)
Inductive event : Type :=
| EvPortOut (v : Z)
| EvDelay (ms : Z).

Record mcu : Type := mkMcu {
  wdt_counter : Z;
  wdt_expirations : Z;
  register_pointer : Z;
  config_reg : Z;
  PORTA_OUT : Z;
  PORTA_DIR : Z;
  SREG_I : bool;          (* global interrupt enable, driven by cli()/sei() *)
  Wire_rx : list Z;       (* bytes of the current write transaction not yet read *)
  Wire_tx : list Z;       (* bytes handed to Wire.write, oldest first *)
  trace : list event      (* oldest first *)
}.

(** ** A state monad for the handlers *)

Definition M (A : Type) : Type := mcu -> A * mcu.

Definition ret {A : Type} (a : A) : M A := fun s => (a, s).

Definition bind {A B : Type} (m : M A) (k : A -> M B) : M B :=
  fun s => let (a, s') := m s in k a s'.

Definition exec {A : Type} (m : M A) (s : mcu) : mcu := snd (m s).

Declare Scope mcu_scope.
Delimit Scope mcu_scope with mcu.
Notation "x <- m ;; k" := (bind m (fun x => k))
  (at level 61, m at next level, right associativity) : mcu_scope.
Notation "m ;; k" := (bind m (fun _ => k))
  (at level 61, right associativity) : mcu_scope.
Local Open Scope mcu_scope.

Definition when (b : bool) (m : M unit) : M unit :=
  if b then m else ret tt.

(** C truth value of an integer expression used as a condition. *)
Definition truthy (z : Z) : bool := negb (z =? 0).

(** *** Accessors for the globals and the peripherals *)

Definition get_wdt_counter : M Z := fun s => (wdt_counter s, s).
Definition get_wdt_expirations : M Z := fun s => (wdt_expirations s, s).
Definition get_register_pointer : M Z := fun s => (register_pointer s, s).
Definition get_config_reg : M Z := fun s => (config_reg s, s).
Definition get_PORTA_OUT : M Z := fun s => (PORTA_OUT s, s).
Definition get_PORTA_DIR : M Z := fun s => (PORTA_DIR s, s).

Definition set_wdt_counter (v : Z) : M unit := fun s =>
  (tt, mkMcu (u8 v) (wdt_expirations s) (register_pointer s) (config_reg s)
             (PORTA_OUT s) (PORTA_DIR s) (SREG_I s) (Wire_rx s) (Wire_tx s)
             (trace s)).

Definition set_wdt_expirations (v : Z) : M unit := fun s =>
  (tt, mkMcu (wdt_counter s) (u8 v) (register_pointer s) (config_reg s)
             (PORTA_OUT s) (PORTA_DIR s) (SREG_I s) (Wire_rx s) (Wire_tx s)
             (trace s)).

Definition set_register_pointer (v : Z) : M unit := fun s =>
  (tt, mkMcu (wdt_counter s) (wdt_expirations s) (u8 v) (config_reg s)
             (PORTA_OUT s) (PORTA_DIR s) (SREG_I s) (Wire_rx s) (Wire_tx s)
             (trace s)).

Definition set_config_reg (v : Z) : M unit := fun s =>
  (tt, mkMcu (wdt_counter s) (wdt_expirations s) (register_pointer s) (u8 v)
             (PORTA_OUT s) (PORTA_DIR s) (SREG_I s) (Wire_rx s) (Wire_tx s)
             (trace s)).

(** A store to PORTA.OUT drives the pins, so it is also an event. *)
Definition set_PORTA_OUT (v : Z) : M unit := fun s =>
  (tt, mkMcu (wdt_counter s) (wdt_expirations s) (register_pointer s)
             (config_reg s) (u8 v) (PORTA_DIR s) (SREG_I s) (Wire_rx s)
             (Wire_tx s) (trace s ++ [EvPortOut (u8 v)])).

Definition set_PORTA_DIR (v : Z) : M unit := fun s =>
  (tt, mkMcu (wdt_counter s) (wdt_expirations s) (register_pointer s)
             (config_reg s) (PORTA_OUT s) (u8 v) (SREG_I s) (Wire_rx s)
             (Wire_tx s) (trace s)).

Definition set_SREG_I (b : bool) : M unit := fun s =>
  (tt, mkMcu (wdt_counter s) (wdt_expirations s) (register_pointer s)
             (config_reg s) (PORTA_OUT s) (PORTA_DIR s) b (Wire_rx s)
             (Wire_tx s) (trace s)).

Definition cli : M unit := set_SREG_I false.
Definition sei : M unit := set_SREG_I true.

Definition delay (ms : Z) : M unit := fun s =>
  (tt, mkMcu (wdt_counter s) (wdt_expirations s) (register_pointer s)
             (config_reg s) (PORTA_OUT s) (PORTA_DIR s) (SREG_I s) (Wire_rx s)
             (Wire_tx s) (trace s ++ [EvDelay ms])).

(** The Wire (TWI slave) object, as far as the handlers use it. *)
Definition set_Wire_rx (bytes : list Z) : M unit := fun s =>
  (tt, mkMcu (wdt_counter s) (wdt_expirations s) (register_pointer s)
             (config_reg s) (PORTA_OUT s) (PORTA_DIR s) (SREG_I s) bytes
             (Wire_tx s) (trace s)).

Definition Wire_available : M bool := fun s =>
  (match Wire_rx s with [] => false | _ :: _ => true end, s).

Definition Wire_read : M Z := fun s =>
  match Wire_rx s with
  | [] => (-1, s)
  | b :: rest =>
      (b, mkMcu (wdt_counter s) (wdt_expirations s) (register_pointer s)
                (config_reg s) (PORTA_OUT s) (PORTA_DIR s) (SREG_I s) rest
                (Wire_tx s) (trace s))
  end.

Definition Wire_write (b : Z) : M unit := fun s =>
  (tt, mkMcu (wdt_counter s) (wdt_expirations s) (register_pointer s)
             (config_reg s) (PORTA_OUT s) (PORTA_DIR s) (SREG_I s) (Wire_rx s)
             (Wire_tx s ++ [u8 b]) (trace s)).

(** ** Output lines *)

(** [PORTA.OUT |= pin; PORTA.DIR |= pin;] *)
Definition assert_pin (pin : Z) : M unit :=
  o <- get_PORTA_OUT ;; set_PORTA_OUT (Z.lor o pin) ;;
  d <- get_PORTA_DIR ;; set_PORTA_DIR (Z.lor d pin).

(** [PORTA.OUT &= ~pin; PORTA.DIR |= pin;] *)
Definition deassert_pin (pin : Z) : M unit :=
  o <- get_PORTA_OUT ;; set_PORTA_OUT (Z.land o (Z.lnot pin)) ;;
  d <- get_PORTA_DIR ;; set_PORTA_DIR (Z.lor d pin).

Definition assert_reset : M unit := assert_pin PORTA_PIN_RESET.
Definition deassert_reset : M unit := deassert_pin PORTA_PIN_RESET.
Definition assert_powercycle : M unit := assert_pin PORTA_PIN_POWERCYCLE.
Definition deassert_powercycle : M unit := deassert_pin PORTA_PIN_POWERCYCLE.
Definition assert_alert : M unit := assert_pin PORTA_PIN_ALERT.
Definition deassert_alert : M unit := deassert_pin PORTA_PIN_ALERT.

(** ** Register file: I2C slave write *)

(** [while(Wire.available()) { Wire.read(); }], unrolled [fuel] times. *)
Fixpoint discard_loop (fuel : nat) : M unit :=
  match fuel with
  | O => ret tt
  | S fuel' =>
      more <- Wire_available ;;
      if more then (_ <- Wire_read ;; discard_loop fuel') else ret tt
  end.

(** The loop reads one byte per round, so the length of the receive buffer
    bounds the number of rounds. *)
Definition discard_rest : M unit :=
  fun s => discard_loop (length (Wire_rx s)) s.

(** The [switch(register_pointer)] that applies the data byte. *)
Definition apply_data (data : Z) : M unit :=
  rp <- get_register_pointer ;;
  if rp =? REG_WDT then
    cli ;;
    set_wdt_counter data ;;
    deassert_alert ;;
    sei
  else if rp =? REG_CONFIG then
    cli ;;
    set_config_reg data ;;
    sei
  else
    ret tt.

Definition i2c_receive_event (howMany : Z) : M unit :=
  has_addr <- Wire_available ;;
  when has_addr (a <- Wire_read ;; set_register_pointer a) ;;
  has_data <- Wire_available ;;
  if negb has_data then ret tt
  else
    d <- Wire_read ;;
    let data := u8 d in
    discard_rest ;;
    apply_data data.

(** ** Register file: I2C slave read *)

(** The [switch(register_pointer)] that selects the byte to send; [tx]
    starts as 0 and the default case leaves it there. *)
Definition select_tx : M Z :=
  rp <- get_register_pointer ;;
  if rp =? REG_VERSION then ret FW_VERSION
  else if rp =? REG_CONFIG then get_config_reg
  else if rp =? REG_WDT then get_wdt_counter
  else ret 0.

Definition i2c_request_event : M unit :=
  tx <- select_tx ;;
  Wire_write tx.

(** ** Tick engine and escalation ladder *)

(** The body of [if(--wdt_counter == 0)] after [wdt_expirations++]. *)
Definition escalation : M unit :=
  e <- get_wdt_expirations ;;
  if e =? 1 then
    cfg <- get_config_reg ;;
    when (truthy (Z.land cfg CONFIG_ENABLE_ALERT)) assert_alert
  else
    cfg <- get_config_reg ;;
    when (truthy (Z.land cfg CONFIG_ENABLE_RESET))
      (assert_reset ;; delay 50 ;; deassert_reset ;; set_wdt_expirations 0) ;;
    cfg' <- get_config_reg ;;
    when (truthy (Z.land cfg' CONFIG_ENABLE_POWERCYCLE))
      (assert_powercycle ;; delay 50 ;; deassert_powercycle ;;
       set_wdt_expirations 0).

Definition timer_handler : M unit :=
  c <- get_wdt_counter ;;
  set_wdt_counter (c - 1) ;;
  c' <- get_wdt_counter ;;
  if c' =? 0 then
    e <- get_wdt_expirations ;;
    set_wdt_expirations (e + 1) ;;
    escalation
  else
    ret tt.

(** ** Power-on *)

(** The globals as the C initialisers leave them, before [setup()]. *)
Definition startup : mcu :=
  mkMcu (u8 (Z.lnot 0)) 0 0
        (Z.lor CONFIG_ENABLE_ALERT CONFIG_ENABLE_POWERCYCLE)
        0 0 true [] [] [].

(** The part of [setup()] that touches the modelled state. *)
Definition setup : M unit :=
  set_PORTA_OUT 0 ;;
  set_PORTA_DIR
    (Z.lor (Z.lor PORTA_PIN_RESET PORTA_PIN_ALERT) PORTA_PIN_POWERCYCLE).

Definition power_on : mcu := exec setup startup.

(** ** The two interrupt sources as inputs of a sequential machine *)

Inductive input : Type :=
| InTick                      (* timer interrupt *)
| InWrite (bytes : list Z)    (* a write transaction: onReceive *)
| InRead.                     (* a read request: onRequest *)

(** Wire fills its receive buffer with the bytes of the transaction and
    then calls the handler with their number. *)
Definition write_transaction (bytes : list Z) (s : mcu) : mcu :=
  exec (set_Wire_rx bytes ;; i2c_receive_event (Z.of_nat (length bytes))) s.

Definition tick (s : mcu) : mcu := exec timer_handler s.

Definition read_request (s : mcu) : mcu := exec i2c_request_event s.

Definition step (s : mcu) (i : input) : mcu :=
  match i with
  | InTick => tick s
  | InWrite bytes => write_transaction bytes s
  | InRead => read_request s
  end.

Definition run (s : mcu) (ins : list input) : mcu := fold_left step ins s.

Definition ticks (n : nat) (s : mcu) : mcu := Nat.iter n tick s.

(** ** Observations *)

(** Level of an output line in a PORTA.OUT value. *)
Definition line (pin : Z) (out : Z) : bool := truthy (Z.land out pin).

Definition alert_line (s : mcu) : bool := line PORTA_PIN_ALERT (PORTA_OUT s).

(** Events a handler run appended to the trace. *)
Definition emitted (s s' : mcu) (evs : list event) : Prop :=
  trace s' = trace s ++ evs.

(** An assert / hold / deassert sequence on [pin] inside [evs]. *)
Definition pulse (pin width : Z) (evs : list event) : Prop :=
  exists pre hi lo post,
    evs = pre ++ [EvPortOut hi; EvDelay width; EvPortOut lo] ++ post /\
    line pin hi = true /\ line pin lo = false.

(** The tick fired an expiration event: the decrement produced zero. *)
Definition expires (s : mcu) : bool := u8 (wdt_counter s - 1) =? 0.

(** The tick runs a reset or power-cycle pulse to completion: the decrement
    produced zero, the incremented count is not 1, and one of the two
    enable flags is set. *)
Definition pulse_fires (s : mcu) : bool :=
  expires s && negb (u8 (wdt_expirations s + 1) =? 1) &&
  (truthy (Z.land (config_reg s) CONFIG_ENABLE_RESET) ||
   truthy (Z.land (config_reg s) CONFIG_ENABLE_POWERCYCLE)).

(** All 8-bit globals hold 8-bit values. *)
Definition byte (z : Z) : Prop := 0 <= z < 256.

Record wf (s : mcu) : Prop := mkWf {
  wf_counter : byte (wdt_counter s);
  wf_expirations : byte (wdt_expirations s);
  wf_pointer : byte (register_pointer s);
  wf_config : byte (config_reg s);
  wf_out : byte (PORTA_OUT s);
  wf_dir : byte (PORTA_DIR s)
}.

(** ** Classifying inputs *)

(** A write transaction that carries a data byte for register [reg]. *)
Definition data_write_to (reg : Z) (i : input) : bool :=
  match i with
  | InWrite (a :: _ :: _) => u8 a =? reg
  | _ => false
  end.

Definition is_tick (i : input) : bool :=
  match i with InTick => true | _ => false end.

Definition is_read (i : input) : bool :=
  match i with InRead => true | _ => false end.

(** Bus traffic that is not a refresh: everything but ticks and data
    writes to the WDT register. *)
Definition bus_only (i : input) : bool :=
  negb (is_tick i) && negb (data_write_to REG_WDT i).

(** The port between two handler runs: of the output lines at most the
    alert line is high, and the three lines are configured as outputs. *)
Definition port_idle (s : mcu) : Prop :=
  (PORTA_OUT s = 0 \/ PORTA_OUT s = PORTA_PIN_ALERT) /\
  PORTA_DIR s =
  Z.lor (Z.lor PORTA_PIN_RESET PORTA_PIN_ALERT) PORTA_PIN_POWERCYCLE.

(** A host that, for each [g] of [gaps] in turn, lets [g] ticks pass and
    then refreshes with the data byte [d]. *)
Definition refresh_schedule (d : Z) (gaps : list nat) : list input :=
  flat_map (fun g => repeat InTick g ++ [InWrite [REG_WDT; d]]) gaps.

(** * The Linux driver, driver/attiny_wdt.c *)

Module Driver.

Import Ascii String.

Definition WATCHDOG_TIMEOUT : Z := 64.
Definition WATCHDOG_REBOOT_TIMEOUT : Z := 2 * WATCHDOG_TIMEOUT.

Definition REG_VERSION : Z := 0x00.
Definition REG_CONTROL : Z := 0x01.
Definition REG_TIMER : Z := 0x02.
Definition REG_STATUS : Z := 0x03.

Definition CONTROL_ENABLE_RESET : Z := Z.shiftl 1 0.
Definition CONTROL_ENABLE_POWERCYCLE : Z := Z.shiftl 1 1.
Definition CONTROL_ENABLE_ALERT : Z := Z.shiftl 1 2.

(** Kernel constants the driver relies on. *)
Definition EIO : Z := 5.
Definition PAGE_SIZE : Z := 4096.

(** ** The host: the chip on the bus, the bus itself, and the kernel log *)

Inductive kmsg : Type :=
| ErrWriteFailed (ret : Z)   (* dev_err: failed to write register: ret = %d *)
| InfoStarting (id : Z)      (* dev_info: watchdog%d: starting timer *)
| InfoStopping (id : Z).     (* dev_info: watchdog%d: stopping timer *)

Record host : Type := mkHost {
  device : mcu;                      (* the firmware at address 0x32 *)
  bus : list (option positive);      (* coming transfers: None succeeds,
                                        Some e fails with -e *)
  klog : list kmsg                   (* oldest first *)
}.

Definition H (A : Type) : Type := host -> A * host.

Definition hret {A : Type} (a : A) : H A := fun h => (a, h).

Definition hbind {A B : Type} (m : H A) (k : A -> H B) : H B :=
  fun h => let (a, h') := m h in k a h'.

Declare Scope host_scope.
Delimit Scope host_scope with host.
Notation "x <- m ;; k" := (hbind m (fun x => k))
  (at level 61, m at next level, right associativity) : host_scope.
Notation "m ;; k" := (hbind m (fun _ => k))
  (at level 61, right associativity) : host_scope.

(** The outcome of the next bus transfer; an exhausted list stands for a
    bus that keeps working. *)
Definition transfer : H Z := fun h =>
  match bus h with
  | [] => (0, h)
  | None :: rest => (0, mkHost (device h) rest (klog h))
  | Some e :: rest => (- Z.pos e, mkHost (device h) rest (klog h))
  end.

(** The next transfer succeeds. *)
Definition next_ok (b : list (option positive)) : Prop :=
  match b with
  | Some _ :: _ => False
  | _ => True
  end.

Definition on_device (f : mcu -> mcu) : H unit := fun h =>
  (tt, mkHost (f (device h)) (bus h) (klog h)).

Definition printk (m : kmsg) : H unit := fun h =>
  (tt, mkHost (device h) (bus h) (klog h ++ [m])).

(** regmap over I2C as attiny_wdt_regmap_config sets it up: 8-bit register
    numbers and values, registers above max_register = REG_STATUS rejected
    with -EIO.  A write is the bus transaction [reg; val]; a failed transfer
    returns its error and does not reach the chip. *)
Definition regmap_write (reg val : Z) : H Z :=
  (if REG_STATUS <? reg then hret (- EIO)
   else
     r <- transfer ;;
     if r =? 0 then on_device (write_transaction [reg; val]) ;; hret 0
     else hret r)%host.

(** A read is the address-only write [reg] followed by a one-byte read
    request; the value is the byte the chip sent. *)
Definition regmap_read (reg : Z) : H (Z * Z) :=
  (if REG_STATUS <? reg then hret (- EIO, 0)
   else
     r <- transfer ;;
     if r =? 0 then
       on_device (fun d => read_request (write_transaction [reg] d)) ;;
       fun h => ((0, last (Wire_tx (device h)) 0), h)
     else hret (r, 0))%host.

(** ** snprintf(buf, PAGE_SIZE, [0x%02hx\n], val) *)

Definition hex_digit (n : Z) : ascii :=
  match n with
  | 0 => "0" | 1 => "1" | 2 => "2" | 3 => "3" | 4 => "4" | 5 => "5"
  | 6 => "6" | 7 => "7" | 8 => "8" | 9 => "9" | 10 => "a" | 11 => "b"
  | 12 => "c" | 13 => "d" | 14 => "e" | _ => "f"
  end%char.

(** Leading zero digits are not printed, the last digit always is. *)
Fixpoint strip_zeros (ds : list Z) : list Z :=
  match ds with
  | 0 :: (_ :: _) as rest => strip_zeros rest
  | _ => ds
  end.

(** The conversion %hx: the argument as an unsigned short, in hexadecimal. *)
Definition fmt_hx (val : Z) : list ascii :=
  let v := val mod 65536 in
  List.map hex_digit
    (strip_zeros [v / 4096 mod 16; v / 256 mod 16; v / 16 mod 16; v mod 16]).

(** Field width 2 with the 0 flag. *)
Definition pad0 (width : nat) (ds : list ascii) : list ascii :=
  List.repeat "0"%char (width - List.length ds) ++ ds.

Definition newline : ascii := ascii_of_nat 10.

(** Returns the length of the whole text and the part of it that fits in
    [size] bytes with the terminating NUL. *)
Definition snprintf_0x02hx (size : Z) (val : Z) : Z * string :=
  let text := "0"%char :: "x"%char :: pad0 2 (fmt_hx val) ++ [newline] in
  (Z.of_nat (List.length text),
   string_of_list_ascii (List.firstn (Z.to_nat (size - 1)) text)).

(** ** The watchdog operations and the sysfs attribute *)

(** [id] is wdev->id. *)
Definition attiny_wdt_start (id : Z) : H Z :=
  (_ <- regmap_write REG_CONTROL
                     (Z.lor CONTROL_ENABLE_POWERCYCLE CONTROL_ENABLE_ALERT) ;;
   ret <- regmap_write REG_TIMER 255 ;;
   (if truthy ret then printk (ErrWriteFailed ret) else hret tt) ;;
   printk (InfoStarting id) ;;
   hret 0)%host.

Definition attiny_wdt_stop (id : Z) : H Z :=
  (ret <- regmap_write REG_CONTROL 0 ;;
   (if truthy ret then printk (ErrWriteFailed ret) else hret tt) ;;
   printk (InfoStopping id) ;;
   hret 0)%host.

(** [index] is attr->index; the result is the return value and what was
    written to [buf], if anything. *)
Definition attiny_wdt_value_show (index : Z) : H (Z * option string) :=
  (rv <- regmap_read index ;;
   let (ret, val) := rv in
   if ret <? 0 then hret (ret, None)
   else
     let (n, text) := snprintf_0x02hx PAGE_SIZE val in
     hret (n, Some text))%host.

End Driver.

(** * Proofs *)

(** ** Symbolic execution of the handlers *)

Ltac mcu_unfold :=
  cbv [exec bind ret when negb
       get_wdt_counter get_wdt_expirations get_register_pointer
       get_config_reg get_PORTA_OUT get_PORTA_DIR
       set_wdt_counter set_wdt_expirations set_register_pointer
       set_config_reg set_PORTA_OUT set_PORTA_DIR set_SREG_I set_Wire_rx
       cli sei delay Wire_available Wire_read Wire_write
       assert_pin deassert_pin assert_reset deassert_reset
       assert_powercycle deassert_powercycle assert_alert deassert_alert];
  cbn [fst snd wdt_counter wdt_expirations register_pointer config_reg
       PORTA_OUT PORTA_DIR SREG_I Wire_rx Wire_tx trace].

(** The same on a state given by its fields: the projections are reduced
    along the way, so that long statement sequences stay small. *)
Ltac mcu_run :=
  cbv [exec bind ret when negb
       get_wdt_counter get_wdt_expirations get_register_pointer
       get_config_reg get_PORTA_OUT get_PORTA_DIR
       set_wdt_counter set_wdt_expirations set_register_pointer
       set_config_reg set_PORTA_OUT set_PORTA_DIR set_SREG_I set_Wire_rx
       cli sei delay Wire_available Wire_read Wire_write
       assert_pin deassert_pin assert_reset deassert_reset
       assert_powercycle deassert_powercycle assert_alert deassert_alert
       fst snd wdt_counter wdt_expirations register_pointer config_reg
       PORTA_OUT PORTA_DIR SREG_I Wire_rx Wire_tx trace].

Ltac mcu_case :=
  match goal with
  | |- context [if ?b then _ else _] => destruct b eqn:?
  end;
  mcu_run.

Ltac mcu_fields :=
  cbn [fst snd wdt_counter wdt_expirations register_pointer config_reg
       PORTA_OUT PORTA_DIR SREG_I Wire_rx Wire_tx trace].

Ltac mcu_fields_in_all :=
  cbn [fst snd wdt_counter wdt_expirations register_pointer config_reg
       PORTA_OUT PORTA_DIR SREG_I Wire_rx Wire_tx trace] in *.

Lemma u8_byte z : byte (u8 z).
Proof. unfold byte, u8. apply Z.mod_pos_bound. lia. Qed.

Lemma u8_small z : byte z -> u8 z = z.
Proof. unfold byte, u8. intro H. apply Z.mod_small. exact H. Qed.

Lemma u8_idem z : u8 (u8 z) = u8 z.
Proof. apply u8_small, u8_byte. Qed.

(** ** Output lines as bits of PORTA.OUT *)

Lemma line_testbit k o :
  0 <= k -> line (Z.shiftl 1 k) o = Z.testbit o k.
Proof.
  intro Hk. unfold line, truthy. rewrite Z.shiftl_1_l.
  destruct (Z.testbit o k) eqn:Hb.
  - destruct (Z.eqb_spec (Z.land o (2 ^ k)) 0) as [E|E]; [|reflexivity].
    assert (Hc : Z.testbit (Z.land o (2 ^ k)) k = true).
    { rewrite Z.land_spec, Hb, Z.pow2_bits_true by exact Hk. reflexivity. }
    rewrite E, Z.bits_0 in Hc. discriminate.
  - assert (E : Z.land o (2 ^ k) = 0).
    { apply Z.bits_inj'. intros n Hn.
      rewrite Z.land_spec, Z.bits_0, Z.pow2_bits_eqb by exact Hk.
      destruct (Z.eqb_spec k n) as [->|_].
      - rewrite Hb. reflexivity.
      - apply andb_false_r. }
    rewrite E. reflexivity.
Qed.

Lemma line_u8 k o :
  0 <= k < 8 -> line (Z.shiftl 1 k) (u8 o) = line (Z.shiftl 1 k) o.
Proof.
  intros [Hk Hk8]. rewrite !line_testbit by exact Hk.
  unfold u8. change 256 with (2 ^ 8).
  apply Z.mod_pow2_bits_low. exact Hk8.
Qed.

Lemma line_set k j o :
  0 <= k < 8 -> 0 <= j ->
  line (Z.shiftl 1 k) (u8 (Z.lor o (Z.shiftl 1 j))) =
  (line (Z.shiftl 1 k) o || (j =? k))%bool.
Proof.
  intros Hk Hj. rewrite line_u8 by exact Hk.
  rewrite !line_testbit by lia.
  rewrite Z.lor_spec, Z.shiftl_1_l, Z.pow2_bits_eqb by exact Hj.
  reflexivity.
Qed.

Lemma line_clear k j o :
  0 <= k < 8 -> 0 <= j ->
  line (Z.shiftl 1 k) (u8 (Z.land o (Z.lnot (Z.shiftl 1 j)))) =
  (line (Z.shiftl 1 k) o && negb (j =? k))%bool.
Proof.
  intros Hk Hj. rewrite line_u8 by exact Hk.
  rewrite !line_testbit by lia.
  rewrite Z.land_spec, Z.lnot_spec, Z.shiftl_1_l, Z.pow2_bits_eqb by lia.
  reflexivity.
Qed.

(** ** The discard loop terminates with an empty receive buffer *)

Lemma discard_loop_drains n :
  forall s, (length (Wire_rx s) <= n)%nat ->
            discard_loop n s = (tt, exec (set_Wire_rx []) s).
Proof.
  induction n as [|n IH]; intros [c e rp cfg o d i rx tx tr] Hlen;
    cbn [Wire_rx] in Hlen.
  - destruct rx as [|b rx]; [reflexivity | cbn in Hlen; lia].
  - destruct rx as [|b rx]; [reflexivity|].
    cbn [discard_loop]. mcu_unfold.
    rewrite IH by (cbn in *; lia). reflexivity.
Qed.

Lemma discard_rest_drains s :
  discard_rest s = (tt, exec (set_Wire_rx []) s).
Proof. unfold discard_rest. apply discard_loop_drains. apply Nat.le_refl. Qed.

(** ** What a write transaction does, by the number of bytes *)

Lemma write_empty s :
  write_transaction [] s = exec (set_Wire_rx []) s.
Proof. reflexivity. Qed.

Lemma write_addr_only a s :
  write_transaction [a] s =
  exec (set_register_pointer a) (exec (set_Wire_rx []) s).
Proof. reflexivity. Qed.

Lemma write_addr_data a d rest s :
  write_transaction (a :: d :: rest) s =
  exec (apply_data (u8 d))
       (exec (set_register_pointer a) (exec (set_Wire_rx []) s)).
Proof.
  unfold write_transaction, i2c_receive_event.
  mcu_unfold. rewrite discard_rest_drains. reflexivity.
Qed.

(** ** What a tick does *)

Lemma tick_unfold s :
  tick s =
  if expires s then
    exec escalation
      (exec (set_wdt_expirations (wdt_expirations s + 1))
         (exec (set_wdt_counter (wdt_counter s - 1)) s))
  else exec (set_wdt_counter (wdt_counter s - 1)) s.
Proof.
  unfold tick, timer_handler, expires. mcu_unfold.
  destruct (u8 (wdt_counter s - 1) =? 0); reflexivity.
Qed.

Lemma ticks_S n s : ticks (S n) s = tick (ticks n s).
Proof. reflexivity. Qed.

Lemma ticks_add n m s : ticks (n + m) s = ticks n (ticks m s).
Proof. unfold ticks. apply Nat.iter_add. Qed.

(** ** Frame properties of the handlers *)

Lemma escalation_frame s :
  wdt_counter (exec escalation s) = wdt_counter s /\
  register_pointer (exec escalation s) = register_pointer s /\
  config_reg (exec escalation s) = config_reg s /\
  SREG_I (exec escalation s) = SREG_I s /\
  Wire_rx (exec escalation s) = Wire_rx s /\
  Wire_tx (exec escalation s) = Wire_tx s.
Proof.
  destruct s as [c e rp cfg o d i rx tx tr].
  unfold escalation. mcu_run.
  mcu_case; [mcu_case | mcu_case; mcu_case]; repeat split; reflexivity.
Qed.

Lemma tick_frame s :
  register_pointer (tick s) = register_pointer s /\
  config_reg (tick s) = config_reg s /\
  SREG_I (tick s) = SREG_I s /\
  Wire_rx (tick s) = Wire_rx s /\
  Wire_tx (tick s) = Wire_tx s.
Proof.
  rewrite tick_unfold. destruct (expires s).
  - destruct (escalation_frame
                (exec (set_wdt_expirations (wdt_expirations s + 1))
                   (exec (set_wdt_counter (wdt_counter s - 1)) s)))
      as (_ & Hp & Hc & Hi & Hr & Ht).
    rewrite Hp, Hc, Hi, Hr, Ht. repeat split; reflexivity.
  - repeat split; reflexivity.
Qed.

Lemma ticks_frame n s :
  register_pointer (ticks n s) = register_pointer s /\
  config_reg (ticks n s) = config_reg s /\
  Wire_tx (ticks n s) = Wire_tx s.
Proof.
  induction n as [|n (IHp & IHc & IHt)]; [repeat split; reflexivity|].
  rewrite ticks_S.
  destruct (tick_frame (ticks n s)) as (Hp & Hc & _ & _ & Ht).
  rewrite Hp, Hc, Ht. repeat split; assumption.
Qed.

Lemma tick_counter s : wdt_counter (tick s) = u8 (wdt_counter s - 1).
Proof.
  rewrite tick_unfold. destruct (expires s); [|reflexivity].
  destruct (escalation_frame
              (exec (set_wdt_expirations (wdt_expirations s + 1))
                 (exec (set_wdt_counter (wdt_counter s - 1)) s)))
    as (Hc & _).
  rewrite Hc. reflexivity.
Qed.

(** ** The registers keep 8-bit values *)

Ltac mcu_wf := split; mcu_unfold; first [assumption | apply u8_byte].

Lemma power_on_wf : wf power_on.
Proof. split; vm_compute; split; congruence. Qed.

Lemma escalation_wf s : wf s -> wf (exec escalation s).
Proof.
  destruct s as [c e rp cfg o d i rx tx tr].
  intros [Hc He Hp Hg Ho Hd]. mcu_fields_in_all.
  unfold escalation. mcu_run.
  mcu_case; [mcu_case | mcu_case; mcu_case];
    split; mcu_fields; first [assumption | apply u8_byte].
Qed.

Lemma tick_wf s : wf s -> wf (tick s).
Proof.
  intros [Hc He Hp Hg Ho Hd]. rewrite tick_unfold.
  destruct (expires s).
  - apply escalation_wf. mcu_wf.
  - mcu_wf.
Qed.

Lemma read_request_wf s : wf s -> wf (read_request s).
Proof.
  intros [Hc He Hp Hg Ho Hd].
  unfold read_request, i2c_request_event, select_tx. mcu_unfold.
  destruct (register_pointer s =? REG_VERSION);
    [|destruct (register_pointer s =? REG_CONFIG);
      [|destruct (register_pointer s =? REG_WDT)]];
    mcu_wf.
Qed.

Lemma apply_data_wf data s : wf s -> wf (exec (apply_data data) s).
Proof.
  intros [Hc He Hp Hg Ho Hd]. unfold apply_data. mcu_unfold.
  destruct (register_pointer s =? REG_WDT);
    [|destruct (register_pointer s =? REG_CONFIG)];
    mcu_wf.
Qed.

Lemma write_transaction_wf bytes s : wf s -> wf (write_transaction bytes s).
Proof.
  intros H. pose proof H as [Hc He Hp Hg Ho Hd].
  destruct bytes as [|a [|d rest]].
  - rewrite write_empty. mcu_wf.
  - rewrite write_addr_only. mcu_wf.
  - rewrite write_addr_data. apply apply_data_wf.
    mcu_wf.
Qed.

Lemma run_wf ins : forall s, wf s -> wf (run s ins).
Proof.
  induction ins as [|i ins IH]; intros s H; [exact H|].
  cbn [run fold_left]. apply IH.
  destruct i; cbn [step];
    auto using tick_wf, write_transaction_wf, read_request_wf.
Qed.

(** ** Applying a data byte, by register *)

Lemma apply_data_wdt data s :
  register_pointer s = REG_WDT ->
  exec (apply_data data) s =
  mkMcu (u8 data) (wdt_expirations s) (register_pointer s) (config_reg s)
        (u8 (Z.land (PORTA_OUT s) (Z.lnot PORTA_PIN_ALERT)))
        (u8 (Z.lor (PORTA_DIR s) PORTA_PIN_ALERT))
        true (Wire_rx s) (Wire_tx s)
        (trace s ++
         [EvPortOut (u8 (Z.land (PORTA_OUT s) (Z.lnot PORTA_PIN_ALERT)))]).
Proof.
  intro H. unfold apply_data. mcu_unfold.
  rewrite (proj2 (Z.eqb_eq _ _) H). reflexivity.
Qed.

Lemma apply_data_config data s :
  register_pointer s = REG_CONFIG ->
  exec (apply_data data) s =
  mkMcu (wdt_counter s) (wdt_expirations s) (register_pointer s) (u8 data)
        (PORTA_OUT s) (PORTA_DIR s) true (Wire_rx s) (Wire_tx s) (trace s).
Proof.
  intro H. unfold apply_data. mcu_unfold.
  assert (Hw : (register_pointer s =? REG_WDT) = false)
    by (rewrite H; reflexivity).
  rewrite Hw, (proj2 (Z.eqb_eq _ _) H). reflexivity.
Qed.

Lemma apply_data_other data s :
  register_pointer s <> REG_WDT -> register_pointer s <> REG_CONFIG ->
  exec (apply_data data) s = s.
Proof.
  intros Hw Hc. unfold apply_data. mcu_unfold.
  apply Z.eqb_neq in Hw. apply Z.eqb_neq in Hc. rewrite Hw, Hc.
  destruct s; reflexivity.
Qed.

(** A refresh: the write transaction [REG_WDT, d, ...]. *)
Lemma refresh_state d rest s :
  write_transaction (REG_WDT :: d :: rest) s =
  mkMcu (u8 d) (wdt_expirations s) REG_WDT (config_reg s)
        (u8 (Z.land (PORTA_OUT s) (Z.lnot PORTA_PIN_ALERT)))
        (u8 (Z.lor (PORTA_DIR s) PORTA_PIN_ALERT))
        true [] (Wire_tx s)
        (trace s ++
         [EvPortOut (u8 (Z.land (PORTA_OUT s) (Z.lnot PORTA_PIN_ALERT)))]).
Proof.
  rewrite write_addr_data, apply_data_wdt by reflexivity.
  mcu_unfold. rewrite u8_idem. reflexivity.
Qed.

Lemma refresh_sets_counter d rest s :
  wdt_counter (write_transaction (REG_WDT :: d :: rest) s) = u8 d.
Proof. rewrite refresh_state. reflexivity. Qed.

Lemma refresh_deasserts_alert d rest s :
  alert_line (write_transaction (REG_WDT :: d :: rest) s) = false.
Proof.
  rewrite refresh_state. unfold alert_line, PORTA_PIN_ALERT. mcu_fields.
  rewrite line_clear by lia. apply andb_false_r.
Qed.

(** Repeating a refresh leaves the registers and the pins where the first
    one put them. *)
Lemma refresh_idempotent d rest rest' s :
  let s1 := write_transaction (REG_WDT :: d :: rest) s in
  let s2 := write_transaction (REG_WDT :: d :: rest') s1 in
  wdt_counter s2 = wdt_counter s1 /\
  wdt_expirations s2 = wdt_expirations s1 /\
  register_pointer s2 = register_pointer s1 /\
  config_reg s2 = config_reg s1 /\
  PORTA_OUT s2 = PORTA_OUT s1 /\
  PORTA_DIR s2 = PORTA_DIR s1.
Proof.
  cbv zeta. rewrite !refresh_state. mcu_fields.
  repeat split.
  - apply Z.bits_inj'. intros n Hn. unfold u8. change 256 with (2 ^ 8).
    destruct (Z.ltb_spec n 8) as [Hlt|Hge].
    + rewrite !Z.mod_pow2_bits_low, !Z.land_spec, !Z.mod_pow2_bits_low,
        !Z.land_spec by lia.
      destruct (Z.testbit (PORTA_OUT s) n),
               (Z.testbit (Z.lnot PORTA_PIN_ALERT) n); reflexivity.
    + rewrite !Z.mod_pow2_bits_high by lia. reflexivity.
  - apply Z.bits_inj'. intros n Hn. unfold u8. change 256 with (2 ^ 8).
    destruct (Z.ltb_spec n 8) as [Hlt|Hge].
    + rewrite !Z.mod_pow2_bits_low, !Z.lor_spec, !Z.mod_pow2_bits_low,
        !Z.lor_spec by lia.
      destruct (Z.testbit (PORTA_DIR s) n),
               (Z.testbit PORTA_PIN_ALERT n); reflexivity.
    + rewrite !Z.mod_pow2_bits_high by lia. reflexivity.
Qed.

(** * The claims *)

(** C1: a refresh write (a write transaction addressed to the WDT register
    with data byte d) sets Countdown to d and leaves the alert line low, but
    it does not touch Expiration Count: the count the refresh finds is the
    count it leaves.  At the state reached from power-on by one missed
    refresh (count 1, alert asserted), a refresh with 200 yields Countdown
    200 and a deasserted alert line while Expiration Count is still 1. *)
Theorem refresh_keeps_expiration_count :
  (forall d rest s,
      wdt_expirations (write_transaction (REG_WDT :: d :: rest) s) =
      wdt_expirations s) /\
  (let s1 := tick (write_transaction [REG_WDT; 1] power_on) in
   let s2 := write_transaction [REG_WDT; 200] s1 in
   wdt_expirations s1 = 1 /\ alert_line s1 = true /\
   wdt_counter s2 = 200 /\ alert_line s2 = false /\
   wdt_expirations s2 = 1).
Proof.
  split.
  - intros d rest s. rewrite refresh_state. reflexivity.
  - vm_compute. repeat split; reflexivity.
Qed.

(** ** Read requests *)

Lemma read_request_unfold s :
  read_request s =
  mkMcu (wdt_counter s) (wdt_expirations s) (register_pointer s)
        (config_reg s) (PORTA_OUT s) (PORTA_DIR s) (SREG_I s) (Wire_rx s)
        (Wire_tx s ++ [u8 (fst (select_tx s))]) (trace s).
Proof.
  unfold read_request, i2c_request_event, select_tx. mcu_unfold.
  destruct (register_pointer s =? REG_VERSION);
    [|destruct (register_pointer s =? REG_CONFIG);
      [|destruct (register_pointer s =? REG_WDT)]];
    reflexivity.
Qed.

Lemma select_tx_value s :
  fst (select_tx s) =
  if register_pointer s =? REG_VERSION then FW_VERSION
  else if register_pointer s =? REG_CONFIG then config_reg s
  else if register_pointer s =? REG_WDT then wdt_counter s
  else 0.
Proof.
  unfold select_tx. mcu_unfold.
  destruct (register_pointer s =? REG_VERSION);
    [|destruct (register_pointer s =? REG_CONFIG);
      [|destruct (register_pointer s =? REG_WDT)]];
    reflexivity.
Qed.

Lemma write_latches_pointer a rest s :
  register_pointer (write_transaction (a :: rest) s) = u8 a.
Proof.
  destruct rest as [|d rest].
  - reflexivity.
  - rewrite write_addr_data. unfold apply_data. mcu_unfold.
    destruct (u8 a =? REG_WDT); [|destruct (u8 a =? REG_CONFIG)];
      reflexivity.
Qed.

(** C2 (as stated, refuted): the first read request after power-on, with no
    address phase ever, is answered with the firmware version 0x10, not 0;
    and a read request that follows a complete refresh transaction, with no
    address phase of its own, is answered with the countdown. *)
Lemma read_without_address_phase_not_zero :
  Wire_tx (read_request power_on) = [0x10] /\
  Wire_tx (read_request (write_transaction [REG_WDT; 7] power_on)) = [7].
Proof. split; reflexivity. Qed.

(** C2 (amended): a read request issued with no address phase of its own is
    answered from the Register Pointer that the last address byte of any
    earlier transaction left behind (0, hence VERSION, when there was none
    since power-on): the firmware version for pointer 0, Configuration for 1,
    Countdown for 2 and 0 for every other pointer value.  The pointer
    survives ticks and empty write transactions.  The read request mutates
    none of Countdown, Expiration Count, Configuration, Register Pointer or
    the output port. *)
Theorem read_request_answers_from_latched_pointer s :
  (Wire_tx (read_request s) =
   Wire_tx s ++
   [if register_pointer s =? REG_VERSION then FW_VERSION
    else if register_pointer s =? REG_CONFIG then u8 (config_reg s)
    else if register_pointer s =? REG_WDT then u8 (wdt_counter s)
    else 0]) /\
  (wdt_counter (read_request s) = wdt_counter s /\
   wdt_expirations (read_request s) = wdt_expirations s /\
   config_reg (read_request s) = config_reg s /\
   register_pointer (read_request s) = register_pointer s /\
   PORTA_OUT (read_request s) = PORTA_OUT s /\
   trace (read_request s) = trace s) /\
  (forall a rest n,
      register_pointer
        (write_transaction [] (ticks n (write_transaction (a :: rest) s))) =
      u8 a) /\
  register_pointer power_on = REG_VERSION.
Proof.
  split; [|split; [|split]].
  - rewrite read_request_unfold. mcu_fields. rewrite select_tx_value.
    destruct (register_pointer s =? REG_VERSION);
      [|destruct (register_pointer s =? REG_CONFIG);
        [|destruct (register_pointer s =? REG_WDT)]];
      reflexivity.
  - rewrite read_request_unfold. repeat split; reflexivity.
  - intros a rest n. rewrite write_empty. mcu_unfold.
    destruct (ticks_frame n (write_transaction (a :: rest) s)) as (Hp & _).
    rewrite Hp. apply write_latches_pointer.
  - reflexivity.
Qed.

(** C7: for every 8-bit value V, writing V to the CONFIG register and then
    reading the CONFIG register returns exactly V: directly after the write,
    after any number of ticks, and after a separate address-only
    transaction that selects CONFIG again. *)
Theorem config_write_read_roundtrip (V : Z) (s : mcu) :
  byte V ->
  let s1 := write_transaction [REG_CONFIG; V] s in
  Wire_tx (read_request s1) = Wire_tx s ++ [V] /\
  (forall n, Wire_tx (read_request (ticks n s1)) = Wire_tx s ++ [V]) /\
  (forall n,
      Wire_tx (read_request (write_transaction [REG_CONFIG] (ticks n s1))) =
      Wire_tx s ++ [V]).
Proof.
  intros HV. cbv zeta.
  assert (Hs1 : write_transaction [REG_CONFIG; V] s =
                mkMcu (wdt_counter s) (wdt_expirations s) REG_CONFIG V
                      (PORTA_OUT s) (PORTA_DIR s) true [] (Wire_tx s)
                      (trace s)).
  { rewrite write_addr_data, apply_data_config by reflexivity.
    mcu_unfold. rewrite u8_idem, (u8_small V HV). reflexivity. }
  assert (Hn : forall n,
             Wire_tx (read_request (ticks n (write_transaction
                                               [REG_CONFIG; V] s))) =
             Wire_tx s ++ [V]).
  { intro n. rewrite read_request_unfold. mcu_fields.
    rewrite select_tx_value.
    destruct (ticks_frame n (write_transaction [REG_CONFIG; V] s))
      as (Hp & Hc & Ht).
    rewrite Hp, Hc, Ht, Hs1. mcu_fields.
    change (REG_CONFIG =? REG_VERSION) with false.
    change (REG_CONFIG =? REG_CONFIG) with true.
    cbv iota. rewrite (u8_small V HV). reflexivity. }
  split; [exact (Hn O)|]. split; [exact Hn|].
  intro n. rewrite write_addr_only, read_request_unfold, select_tx_value.
  mcu_unfold.
  destruct (ticks_frame n (write_transaction [REG_CONFIG; V] s))
    as (_ & Hc & Ht).
  rewrite Hc, Ht, Hs1. mcu_fields.
  change (u8 REG_CONFIG =? REG_VERSION) with false.
  change (u8 REG_CONFIG =? REG_CONFIG) with true.
  cbv iota. rewrite (u8_small V HV). reflexivity.
Qed.

Lemma config_write_read_roundtrip_witness :
  byte 0xA5 /\
  Wire_tx (read_request (write_transaction [REG_CONFIG; 0xA5] power_on)) =
  Wire_tx power_on ++ [0xA5].
Proof.
  assert (Hb : byte 0xA5) by (unfold byte; lia).
  split; [exact Hb|].
  exact (proj1 (config_write_read_roundtrip 0xA5 power_on Hb)).
Defined.

(** C8: in a write transaction, an address byte followed by no data byte
    updates only the Register Pointer; an address byte followed by one or
    more data bytes applies exactly the first data byte to the addressed
    register (Countdown for WDT, Configuration for CONFIG, nothing for any
    other address) and the further bytes are read from the bus buffer and
    have no effect. *)
Theorem write_transaction_applies_first_data_byte (a : Z) (s : mcu) :
  write_transaction [a] s =
    mkMcu (wdt_counter s) (wdt_expirations s) (u8 a) (config_reg s)
          (PORTA_OUT s) (PORTA_DIR s) (SREG_I s) [] (Wire_tx s) (trace s) /\
  (forall d rest,
      write_transaction (a :: d :: rest) s = write_transaction [a; d] s /\
      Wire_rx (write_transaction (a :: d :: rest) s) = []) /\
  (forall d rest,
      u8 a = REG_WDT ->
      wdt_counter (write_transaction (a :: d :: rest) s) = u8 d /\
      config_reg (write_transaction (a :: d :: rest) s) = config_reg s) /\
  (forall d rest,
      u8 a = REG_CONFIG ->
      config_reg (write_transaction (a :: d :: rest) s) = u8 d /\
      wdt_counter (write_transaction (a :: d :: rest) s) = wdt_counter s /\
      wdt_expirations (write_transaction (a :: d :: rest) s) =
        wdt_expirations s /\
      PORTA_OUT (write_transaction (a :: d :: rest) s) = PORTA_OUT s /\
      trace (write_transaction (a :: d :: rest) s) = trace s) /\
  (forall d rest,
      u8 a <> REG_WDT -> u8 a <> REG_CONFIG ->
      write_transaction (a :: d :: rest) s = write_transaction [a] s).
Proof.
  split; [reflexivity|]. split; [|split; [|split]].
  - intros d rest. split.
    + rewrite !write_addr_data. reflexivity.
    + rewrite write_addr_data. unfold apply_data. mcu_unfold.
      destruct (u8 a =? REG_WDT); [|destruct (u8 a =? REG_CONFIG)];
        reflexivity.
  - intros d rest Ha.
    rewrite write_addr_data, apply_data_wdt by exact Ha.
    mcu_unfold. split; [apply u8_idem | reflexivity].
  - intros d rest Ha.
    rewrite write_addr_data, apply_data_config by exact Ha.
    mcu_unfold. split; [apply u8_idem | repeat split; reflexivity].
  - intros d rest Hw Hc.
    rewrite write_addr_data, apply_data_other by assumption.
    reflexivity.
Qed.

Lemma write_transaction_applies_first_data_byte_witness :
  write_transaction [REG_WDT; 9; 8; 7] power_on =
    write_transaction [REG_WDT; 9] power_on /\
  wdt_counter (write_transaction [REG_WDT; 9; 8; 7] power_on) = 9 /\
  config_reg (write_transaction [REG_CONFIG; 5; 8; 7] power_on) = 5 /\
  write_transaction [REG_VERSION; 9; 8] power_on =
    write_transaction [REG_VERSION] power_on.
Proof.
  split; [|split; [|split]].
  - apply (write_transaction_applies_first_data_byte REG_WDT power_on).
  - apply (write_transaction_applies_first_data_byte REG_WDT power_on).
    reflexivity.
  - apply (write_transaction_applies_first_data_byte REG_CONFIG power_on).
    reflexivity.
  - apply (write_transaction_applies_first_data_byte REG_VERSION power_on);
      vm_compute; discriminate.
Defined.

(** C6: every tick decrements Countdown by exactly 1 modulo 256 (0 wraps to
    255).  The expiration branch is taken if and only if the decrement
    produced 0: then Expiration Count is incremented (as an 8-bit counter)
    and the escalation logic runs on the state that holds the new count;
    otherwise the tick changes nothing but Countdown. *)
Theorem tick_decrements_and_expires_at_zero (s : mcu) :
  wdt_counter (tick s) = (wdt_counter s - 1) mod 256 /\
  (wdt_counter s = 0 -> wdt_counter (tick s) = 255) /\
  (wdt_counter (tick s) = 0 ->
   tick s =
   exec escalation
     (mkMcu 0 ((wdt_expirations s + 1) mod 256) (register_pointer s)
            (config_reg s) (PORTA_OUT s) (PORTA_DIR s) (SREG_I s)
            (Wire_rx s) (Wire_tx s) (trace s))) /\
  (wdt_counter (tick s) <> 0 ->
   tick s =
   mkMcu ((wdt_counter s - 1) mod 256) (wdt_expirations s)
         (register_pointer s) (config_reg s) (PORTA_OUT s) (PORTA_DIR s)
         (SREG_I s) (Wire_rx s) (Wire_tx s) (trace s)) /\
  (0 <= wdt_expirations s < 255 ->
   (wdt_expirations s + 1) mod 256 = wdt_expirations s + 1).
Proof.
  split; [apply tick_counter|].
  split; [intro H0; rewrite tick_counter, H0; reflexivity|].
  split; [|split].
  - rewrite tick_counter. intro Hz.
    rewrite tick_unfold. unfold expires. rewrite Hz.
    change (0 =? 0) with true. cbv iota. mcu_unfold. rewrite Hz.
    reflexivity.
  - rewrite tick_counter. intro Hnz.
    rewrite tick_unfold. unfold expires.
    apply Z.eqb_neq in Hnz. rewrite Hnz. reflexivity.
  - intro He. apply Z.mod_small. lia.
Qed.

Lemma tick_decrements_and_expires_at_zero_witness :
  wdt_counter (tick (write_transaction [REG_WDT; 0] power_on)) = 255 /\
  tick (write_transaction [REG_WDT; 1] power_on) =
    exec escalation
      (mkMcu 0 1 REG_WDT 6 0 200 true [] [] [EvPortOut 0; EvPortOut 0]) /\
  tick power_on = mkMcu 254 0 0 6 0 200 true [] [] [EvPortOut 0].
Proof.
  split; [|split].
  - apply (tick_decrements_and_expires_at_zero
             (write_transaction [REG_WDT; 0] power_on)).
    reflexivity.
  - apply (tick_decrements_and_expires_at_zero
             (write_transaction [REG_WDT; 1] power_on)).
    reflexivity.
  - apply (tick_decrements_and_expires_at_zero power_on).
    vm_compute. discriminate.
Defined.

(** C5: on an expiration event whose Expiration Count is at least 2, with
    both enable-reset-line and enable-powercycle-line set, the tick emits a
    complete reset pulse followed by a complete power-cycle pulse (assert,
    hold 50 ms, deassert, each on its own line) and leaves Expiration Count
    at 0. *)
Theorem both_pulses_fire_on_one_expiration (s : mcu) :
  expires s = true ->
  2 <= u8 (wdt_expirations s + 1) ->
  truthy (Z.land (config_reg s) CONFIG_ENABLE_RESET) = true ->
  truthy (Z.land (config_reg s) CONFIG_ENABLE_POWERCYCLE) = true ->
  exists r_hi r_lo p_hi p_lo,
    let evs := [EvPortOut r_hi; EvDelay 50; EvPortOut r_lo;
                EvPortOut p_hi; EvDelay 50; EvPortOut p_lo] in
    emitted s (tick s) evs /\
    pulse PORTA_PIN_RESET 50 evs /\
    pulse PORTA_PIN_POWERCYCLE 50 evs /\
    wdt_expirations (tick s) = 0.
Proof.
  intros Hexp Hcount Hreset Hpower.
  rewrite tick_unfold, Hexp.
  assert (Hne : (u8 (wdt_expirations s + 1) =? 1) = false)
    by (apply Z.eqb_neq; lia).
  unfold emitted.
  destruct s as [c e rp cfg o d i rx tx tr]. mcu_fields_in_all.
  unfold escalation. mcu_run.
  rewrite Hne. mcu_run. rewrite Hreset. mcu_run. rewrite Hpower. mcu_run.
  set (r_hi := u8 (Z.lor o PORTA_PIN_RESET)).
  set (r_lo := u8 (Z.land r_hi (Z.lnot PORTA_PIN_RESET))).
  set (p_hi := u8 (Z.lor r_lo PORTA_PIN_POWERCYCLE)).
  set (p_lo := u8 (Z.land p_hi (Z.lnot PORTA_PIN_POWERCYCLE))).
  exists r_hi, r_lo, p_hi, p_lo.
  split; [|split; [|split]].
  - rewrite <- !app_assoc. reflexivity.
  - exists [], r_hi, r_lo, [EvPortOut p_hi; EvDelay 50; EvPortOut p_lo].
    split; [reflexivity|]. subst r_hi r_lo. unfold PORTA_PIN_RESET. split.
    + rewrite line_set by lia. apply orb_true_r.
    + rewrite line_clear by lia. apply andb_false_r.
  - exists [EvPortOut r_hi; EvDelay 50; EvPortOut r_lo], p_hi, p_lo, [].
    split; [reflexivity|]. subst p_hi p_lo. unfold PORTA_PIN_POWERCYCLE.
    split.
    + rewrite line_set by lia. apply orb_true_r.
    + rewrite line_clear by lia. apply andb_false_r.
  - reflexivity.
Qed.

Lemma both_pulses_fire_on_one_expiration_witness :
  exists r_hi r_lo p_hi p_lo,
    let s := mkMcu 1 1 REG_WDT 7 64 200 true [] [] [] in
    let evs := [EvPortOut r_hi; EvDelay 50; EvPortOut r_lo;
                EvPortOut p_hi; EvDelay 50; EvPortOut p_lo] in
    emitted s (tick s) evs /\
    pulse PORTA_PIN_RESET 50 evs /\
    pulse PORTA_PIN_POWERCYCLE 50 evs /\
    wdt_expirations (tick s) = 0.
Proof.
  apply (both_pulses_fire_on_one_expiration
           (mkMcu 1 1 REG_WDT 7 64 200 true [] [] [])).
  - reflexivity.
  - vm_compute. discriminate.
  - reflexivity.
  - reflexivity.
Defined.

(** ** Ticks that do not expire *)

Lemma tick_quiet s :
  expires s = false ->
  tick s =
  mkMcu (u8 (wdt_counter s - 1)) (wdt_expirations s) (register_pointer s)
        (config_reg s) (PORTA_OUT s) (PORTA_DIR s) (SREG_I s) (Wire_rx s)
        (Wire_tx s) (trace s).
Proof. intro H. rewrite tick_unfold, H. reflexivity. Qed.

Lemma ticks_counter n s :
  wdt_counter (ticks (S n) s) = u8 (wdt_counter s - Z.of_nat (S n)).
Proof.
  induction n as [|n IH].
  - cbn [ticks Nat.iter]. apply tick_counter.
  - rewrite ticks_S, tick_counter, IH. unfold u8.
    rewrite Zminus_mod_idemp_l. f_equal. lia.
Qed.

Lemma expires_after_ticks n s :
  byte (wdt_counter s) ->
  expires (ticks n s) = (u8 (wdt_counter s - Z.of_nat n - 1) =? 0).
Proof.
  intro Hb. unfold expires. destruct n as [|n].
  - cbn [ticks Nat.iter]. change (Z.of_nat 0) with 0. rewrite Z.sub_0_r.
    reflexivity.
  - rewrite ticks_counter. unfold u8. rewrite Zminus_mod_idemp_l.
    reflexivity.
Qed.

Lemma ticks_quiet n s :
  (forall k, (k < n)%nat -> expires (ticks k s) = false) ->
  wdt_expirations (ticks n s) = wdt_expirations s /\
  PORTA_OUT (ticks n s) = PORTA_OUT s /\
  trace (ticks n s) = trace s.
Proof.
  induction n as [|n IH]; intro H; [repeat split; reflexivity|].
  destruct IH as (He & Ho & Ht); [intros k Hk; apply H; lia|].
  rewrite ticks_S, tick_quiet by (apply H; lia).
  mcu_fields. repeat split; assumption.
Qed.

(** C10: writing 0 to the WDT register gives the longest timeout.  The next
    tick takes Countdown from 0 to 255 without an expiration; none of the
    first 255 ticks after the write expires, changes Expiration Count or
    drives a pin; the 256th tick is the first to expire, taking Countdown
    to 0. *)
Theorem refresh_with_zero_expires_after_256_ticks (rest : list Z) (s : mcu) :
  let s0 := write_transaction (REG_WDT :: 0 :: rest) s in
  wdt_counter s0 = 0 /\
  expires s0 = false /\
  wdt_counter (tick s0) = 255 /\
  (forall k, (k < 255)%nat -> expires (ticks k s0) = false) /\
  (forall k, (k <= 255)%nat ->
             wdt_counter (ticks (S k) s0) = 255 - Z.of_nat k /\
             wdt_expirations (ticks k s0) = wdt_expirations s0 /\
             PORTA_OUT (ticks k s0) = PORTA_OUT s0 /\
             trace (ticks k s0) = trace s0) /\
  expires (ticks 255 s0) = true /\
  wdt_counter (ticks 256 s0) = 0.
Proof.
  cbv zeta.
  set (s0 := write_transaction (REG_WDT :: 0 :: rest) s).
  assert (Hc : wdt_counter s0 = 0) by (apply refresh_sets_counter).
  assert (Hb : byte (wdt_counter s0)) by (rewrite Hc; unfold byte; lia).
  assert (Hq : forall k, (k < 255)%nat -> expires (ticks k s0) = false).
  { intros k Hk. rewrite expires_after_ticks, Hc by exact Hb.
    apply Z.eqb_neq. unfold u8.
    Z.to_euclidean_division_equations. lia. }
  split; [exact Hc|].
  split; [exact (Hq O ltac:(lia))|].
  split; [rewrite tick_counter, Hc; reflexivity|].
  split; [exact Hq|].
  split; [|split].
  - intros k Hk. split.
    + rewrite ticks_counter, Hc. unfold u8.
      Z.to_euclidean_division_equations. lia.
    + apply ticks_quiet. intros j Hj. apply Hq. lia.
  - rewrite expires_after_ticks, Hc by exact Hb. reflexivity.
  - rewrite ticks_counter, Hc. reflexivity.
Qed.

Lemma refresh_with_zero_expires_after_256_ticks_witness :
  let s0 := write_transaction [REG_WDT; 0] power_on in
  expires (ticks 100 s0) = false /\
  wdt_counter (ticks 101 s0) = 155 /\
  wdt_expirations (ticks 100 s0) = wdt_expirations s0.
Proof.
  cbv zeta.
  destruct (refresh_with_zero_expires_after_256_ticks [] power_on)
    as (_ & _ & _ & Hquiet & Hstate & _).
  split; [|split].
  - apply Hquiet. lia.
  - apply (Hstate 100%nat). lia.
  - apply (Hstate 100%nat). lia.
Defined.

(** ** Expiration Count along ticks *)

Lemma tick_expirations_no_pulse s :
  pulse_fires s = false ->
  wdt_expirations (tick s) =
  if expires s then u8 (wdt_expirations s + 1) else wdt_expirations s.
Proof.
  unfold pulse_fires. intro H. rewrite tick_unfold.
  destruct (expires s); [|reflexivity].
  cbn [andb] in H.
  destruct s as [c e rp cfg o d i rx tx tr]. mcu_fields_in_all.
  unfold escalation. mcu_run.
  destruct (u8 (e + 1) =? 1); mcu_run.
  - mcu_case; reflexivity.
  - cbn [negb andb] in H. apply orb_false_elim in H. destruct H as [Hr Hp].
    rewrite Hr. mcu_run. rewrite Hp. reflexivity.
Qed.

Lemma tick_expirations_pulse s :
  pulse_fires s = true -> wdt_expirations (tick s) = 0.
Proof.
  unfold pulse_fires. intro H.
  apply andb_prop in H. destruct H as [H Hor].
  apply andb_prop in H. destruct H as [Hexp Hne].
  rewrite tick_unfold, Hexp.
  apply negb_true_iff in Hne.
  destruct s as [c e rp cfg o d i rx tx tr]. mcu_fields_in_all.
  unfold escalation. mcu_run. rewrite Hne. mcu_run.
  destruct (truthy (Z.land cfg CONFIG_ENABLE_RESET)) eqn:Hr; mcu_run;
    destruct (truthy (Z.land cfg CONFIG_ENABLE_POWERCYCLE)) eqn:Hp;
    try reflexivity.
  discriminate Hor.
Qed.

Lemma chain_le (f : nat -> Z) (n : nat) :
  (forall k, (k < n)%nat -> f k <= f (S k)) ->
  forall i j, (i <= j <= n)%nat -> f i <= f j.
Proof.
  intros Hstep i j. induction j as [|j IH]; intros [Hij Hjn].
  - replace i with O by lia. apply Z.le_refl.
  - destruct (Nat.eq_dec i (S j)) as [->|Hne]; [apply Z.le_refl|].
    apply Z.le_trans with (f j); [apply IH; lia | apply Hstep; lia].
Qed.

Lemma ticks_wf n s : wf s -> wf (ticks n s).
Proof.
  intro H. induction n as [|n IH]; [exact H|].
  rewrite ticks_S. apply tick_wf. exact IH.
Qed.

(** C3 (as stated, refuted): with every enable flag cleared no escalation
    action can complete; ticking on from power-on without any refresh,
    Expiration Count reaches 255 after 65279 ticks and is back at 0 after
    65535 ticks.  The wrapping tick starts from Countdown 1 and Expiration
    Count 255, fires no pulse, and leaves the count at 0, not 256. *)
Lemma expiration_count_wraps_at_255 :
  let s0 := write_transaction [REG_CONFIG; 0] power_on in
  let before := ticks (Z.to_nat 65279) s0 in
  let last := ticks (Z.to_nat 65534) s0 in
  let after := ticks (Z.to_nat 65535) s0 in
  wdt_expirations before = 255 /\
  last = mkMcu 1 255 REG_CONFIG 0 0 200 true [] [] [EvPortOut 0] /\
  expires last = true /\ pulse_fires last = false /\
  after = tick last /\
  wdt_expirations after = 0 /\ trace after = trace s0 /\
  ~ (wdt_expirations before <= wdt_expirations after) /\
  wdt_expirations (tick last) <> wdt_expirations last + 1.
Proof.
  cbv zeta.
  set (s0 := write_transaction [REG_CONFIG; 0] power_on).
  assert (Hbefore : wdt_expirations (ticks (Z.to_nat 65279) s0) = 255)
    by (vm_compute; reflexivity).
  assert (Hlast : ticks (Z.to_nat 65534) s0 =
                  mkMcu 1 255 REG_CONFIG 0 0 200 true [] [] [EvPortOut 0])
    by (vm_compute; reflexivity).
  assert (Hafter : ticks (Z.to_nat 65535) s0 =
                   mkMcu 0 0 REG_CONFIG 0 0 200 true [] [] [EvPortOut 0])
    by (vm_compute; reflexivity).
  rewrite Hbefore, Hlast, Hafter.
  repeat split; try reflexivity.
  - cbn [wdt_expirations]. lia.
  - change (tick (mkMcu 1 255 REG_CONFIG 0 0 200 true [] [] [EvPortOut 0]))
      with (mkMcu 0 0 REG_CONFIG 0 0 200 true [] [] [EvPortOut 0]).
    cbn [wdt_expirations]. lia.
Qed.

(** C3 (amended): along every sequence of ticks with no intervening refresh
    write and no completed reset or power-cycle pulse, Expiration Count
    increases by 1 modulo 256 at each decrement-to-zero of Countdown (255
    wraps to 0) and is left unchanged by every other tick; as long as it is
    below 255 it is monotonically non-decreasing, and each
    decrement-to-zero adds exactly 1. *)
Theorem expiration_count_grows_modulo_256 (n : nat) (s : mcu) :
  (forall k, (k < n)%nat -> pulse_fires (ticks k s) = false) ->
  (forall k, (k < n)%nat ->
     wdt_expirations (ticks (S k) s) =
     if expires (ticks k s)
     then (wdt_expirations (ticks k s) + 1) mod 256
     else wdt_expirations (ticks k s)) /\
  ((forall k, (k < n)%nat -> wdt_expirations (ticks k s) < 255) ->
   forall i j, (i <= j <= n)%nat ->
               wdt_expirations (ticks i s) <= wdt_expirations (ticks j s)) /\
  (wf s ->
   forall k, (k < n)%nat ->
             wdt_expirations (ticks k s) < 255 ->
             expires (ticks k s) = true ->
             wdt_expirations (ticks (S k) s) =
             wdt_expirations (ticks k s) + 1).
Proof.
  intro Hquiet.
  assert (Hstep : forall k, (k < n)%nat ->
            wdt_expirations (ticks (S k) s) =
            if expires (ticks k s)
            then (wdt_expirations (ticks k s) + 1) mod 256
            else wdt_expirations (ticks k s)).
  { intros k Hk. rewrite ticks_S.
    apply tick_expirations_no_pulse, Hquiet, Hk. }
  split; [exact Hstep|]. split.
  - intros Hlt.
    apply (chain_le (fun k => wdt_expirations (ticks k s))).
    intros k Hk. rewrite (Hstep k Hk).
    specialize (Hlt k Hk).
    destruct (expires (ticks k s)); [|apply Z.le_refl].
    Z.to_euclidean_division_equations. lia.
  - intros Hwf k Hk Hlt Hexp. rewrite (Hstep k Hk), Hexp.
    apply Z.mod_small.
    destruct (ticks_wf k s Hwf) as [_ [He _] _ _ _ _]. lia.
Qed.

Lemma expiration_count_grows_modulo_256_witness :
  let s := write_transaction [REG_WDT; 1] power_on in
  wdt_expirations (ticks 1 s) = (wdt_expirations (ticks 0 s) + 1) mod 256 /\
  wdt_expirations (ticks 0 s) <= wdt_expirations (ticks 1 s) /\
  wdt_expirations (ticks 1 s) = wdt_expirations (ticks 0 s) + 1.
Proof.
  cbv zeta.
  assert (Hq : forall k, (k < 1)%nat ->
             pulse_fires
               (ticks k (write_transaction [REG_WDT; 1] power_on)) = false).
  { intros k Hk. replace k with O by lia. reflexivity. }
  destruct (expiration_count_grows_modulo_256
              1 (write_transaction [REG_WDT; 1] power_on) Hq)
    as (Hstep & Hmono & Hplus).
  split; [|split].
  - apply (Hstep O). lia.
  - apply Hmono; [|lia].
    intros k Hk. replace k with O by lia. vm_compute. reflexivity.
  - apply Hplus.
    + apply write_transaction_wf, power_on_wf.
    + lia.
    + vm_compute. reflexivity.
    + reflexivity.
Defined.

(** ** The alert latch *)

(** No tick ever lowers the alert line. *)
Lemma tick_keeps_alert s : alert_line s = true -> alert_line (tick s) = true.
Proof.
  unfold alert_line. intro H. rewrite tick_unfold.
  destruct (expires s); [|exact H].
  destruct s as [c e rp cfg o d i rx tx tr]. mcu_fields_in_all.
  unfold PORTA_PIN_ALERT in H.
  unfold escalation. mcu_run.
  mcu_case; [mcu_case | mcu_case; mcu_case];
    unfold PORTA_PIN_ALERT, PORTA_PIN_RESET, PORTA_PIN_POWERCYCLE;
    repeat first [rewrite line_clear by lia | rewrite line_set by lia];
    rewrite H; reflexivity.
Qed.

Lemma ticks_keep_alert n s :
  alert_line s = true -> alert_line (ticks n s) = true.
Proof.
  intro H. induction n as [|n IH]; [exact H|].
  rewrite ticks_S. apply tick_keeps_alert, IH.
Qed.

(** From Expiration Count 0, the expiring tick drives PORTA.OUT once, with
    the alert bit set, when enable-alert-line is set. *)
Lemma first_expiration_asserts_alert s :
  wdt_expirations s = 0 ->
  expires s = true ->
  truthy (Z.land (config_reg s) CONFIG_ENABLE_ALERT) = true ->
  emitted s (tick s) [EvPortOut (u8 (Z.lor (PORTA_OUT s) PORTA_PIN_ALERT))] /\
  alert_line (tick s) = true /\
  wdt_expirations (tick s) = 1.
Proof.
  intros He Hexp Ha. rewrite tick_unfold, Hexp. unfold emitted, alert_line.
  destruct s as [c e rp cfg o d i rx tx tr]. mcu_fields_in_all. subst e.
  unfold escalation. mcu_run.
  change (u8 (0 + 1) =? 1) with true. mcu_run. rewrite Ha. mcu_run.
  split; [reflexivity|]. split; [|reflexivity].
  unfold PORTA_PIN_ALERT. rewrite line_set by lia. apply orb_true_r.
Qed.

(** C4: the first decrement-to-zero after a refresh does not assert the
    alert line when the refresh found Expiration Count at 1.  From power-on
    (alert and power-cycle enabled): a first miss asserts the alert; the
    refresh deasserts it and leaves the count at 1; the next
    decrement-to-zero, with no refresh in between, emits a power-cycle
    pulse and no alert.  With only the alert enabled, no tick after such a
    refresh asserts the alert at all, across three further expirations. *)
Theorem first_miss_after_refresh_raises_no_alert :
  (let s1 := tick (write_transaction [REG_WDT; 1] power_on) in
   let s2 := write_transaction [REG_WDT; 1] s1 in
   let s3 := tick s2 in
   truthy (Z.land (config_reg s2) CONFIG_ENABLE_ALERT) = true /\
   alert_line s1 = true /\
   alert_line s2 = false /\ wdt_expirations s2 = 1 /\
   expires s2 = true /\
   emitted s2 s3 [EvPortOut 128; EvDelay 50; EvPortOut 0] /\
   alert_line s3 = false) /\
  (let t0 := write_transaction [REG_CONFIG; 4] power_on in
   let t1 := tick (write_transaction [REG_WDT; 1] t0) in
   let t2 := write_transaction [REG_WDT; 1] t1 in
   truthy (Z.land (config_reg t2) CONFIG_ENABLE_ALERT) = true /\
   alert_line t1 = true /\ alert_line t2 = false /\
   expires t2 = true /\
   wdt_expirations (ticks 600 t2) = 4 /\
   trace (ticks 600 t2) = trace t2 /\
   alert_line (ticks 600 t2) = false).
Proof.
  split; vm_compute; repeat split; reflexivity.
Qed.

(** * Further properties of the firmware *)

(** ** What each kind of input leaves alone *)

Lemma write_transaction_frame bytes s :
  wdt_expirations (write_transaction bytes s) = wdt_expirations s /\
  Wire_tx (write_transaction bytes s) = Wire_tx s /\
  Wire_rx (write_transaction bytes s) = [] /\
  (data_write_to REG_WDT (InWrite bytes) = false ->
   wdt_counter (write_transaction bytes s) = wdt_counter s /\
   PORTA_OUT (write_transaction bytes s) = PORTA_OUT s /\
   PORTA_DIR (write_transaction bytes s) = PORTA_DIR s /\
   trace (write_transaction bytes s) = trace s) /\
  (data_write_to REG_CONFIG (InWrite bytes) = false ->
   config_reg (write_transaction bytes s) = config_reg s) /\
  SREG_I (write_transaction bytes s) =
  (if (data_write_to REG_WDT (InWrite bytes) ||
       data_write_to REG_CONFIG (InWrite bytes))%bool
   then true else SREG_I s).
Proof.
  destruct bytes as [|a [|d rest]].
  - rewrite write_empty. repeat split; reflexivity.
  - rewrite write_addr_only. repeat split; reflexivity.
  - rewrite write_addr_data. cbn [data_write_to].
    unfold apply_data. mcu_unfold.
    destruct (u8 a =? REG_WDT) eqn:Hw;
      [|destruct (u8 a =? REG_CONFIG) eqn:Hc];
      mcu_unfold; cbn [orb]; repeat split; intros; try reflexivity;
      discriminate.
Qed.

Lemma read_request_frame s :
  wdt_counter (read_request s) = wdt_counter s /\
  wdt_expirations (read_request s) = wdt_expirations s /\
  register_pointer (read_request s) = register_pointer s /\
  config_reg (read_request s) = config_reg s /\
  PORTA_OUT (read_request s) = PORTA_OUT s /\
  PORTA_DIR (read_request s) = PORTA_DIR s /\
  SREG_I (read_request s) = SREG_I s /\
  Wire_rx (read_request s) = Wire_rx s /\
  trace (read_request s) = trace s.
Proof. rewrite read_request_unfold. repeat split; reflexivity. Qed.

Lemma run_cons s i ins : run s (i :: ins) = run (step s i) ins.
Proof. reflexivity. Qed.

(** X1: Configuration changes only through a data write to the CONFIG
    register: over any sequence of ticks, read requests and other write
    transactions it keeps its value. *)
Theorem config_changes_only_by_config_writes (ins : list input) :
  forall s,
    existsb (data_write_to REG_CONFIG) ins = false ->
    config_reg (run s ins) = config_reg s.
Proof.
  induction ins as [|i ins IH]; intros s H; [reflexivity|].
  cbn [existsb] in H. apply orb_false_elim in H. destruct H as [Hi Hins].
  rewrite run_cons, IH by exact Hins.
  destruct i as [|bytes|]; cbn [step].
  - apply tick_frame.
  - apply write_transaction_frame. exact Hi.
  - apply read_request_frame.
Qed.

Lemma config_changes_only_by_config_writes_witness :
  config_reg
    (run power_on
         [InWrite [REG_WDT; 1]; InTick; InRead; InWrite [REG_CONFIG];
          InWrite [7; 9]; InTick]) =
  config_reg power_on.
Proof.
  apply (config_changes_only_by_config_writes
           [InWrite [REG_WDT; 1]; InTick; InRead; InWrite [REG_CONFIG];
            InWrite [7; 9]; InTick] power_on).
  reflexivity.
Defined.

(** X2: bus traffic other than a refresh never drives a pin and never
    touches Countdown or Expiration Count: read requests, CONFIG writes,
    address-only writes, empty writes and writes to read-only or undefined
    addresses leave PORTA.OUT, PORTA.DIR, the event trace and both counters
    as they were. *)
Theorem bus_traffic_without_refresh_is_inert (ins : list input) :
  forall s,
    forallb bus_only ins = true ->
    PORTA_OUT (run s ins) = PORTA_OUT s /\
    PORTA_DIR (run s ins) = PORTA_DIR s /\
    trace (run s ins) = trace s /\
    wdt_counter (run s ins) = wdt_counter s /\
    wdt_expirations (run s ins) = wdt_expirations s.
Proof.
  induction ins as [|i ins IH]; intros s H; [repeat split; reflexivity|].
  cbn [forallb] in H. apply andb_prop in H. destruct H as [Hi Hins].
  rewrite run_cons.
  destruct (IH (step s i) Hins) as (Ho & Hd & Ht & Hc & He).
  rewrite Ho, Hd, Ht, Hc, He. clear IH Ho Hd Ht Hc He.
  unfold bus_only in Hi. apply andb_prop in Hi. destruct Hi as [Htick Hwdt].
  apply negb_true_iff in Hwdt.
  destruct i as [|bytes|]; cbn [step].
  - discriminate Htick.
  - destruct (write_transaction_frame bytes s) as (He & _ & _ & Hf & _).
    destruct (Hf Hwdt) as (Hc & Ho & Hd & Ht).
    rewrite He, Hc, Ho, Hd, Ht. repeat split; reflexivity.
  - rewrite read_request_unfold. repeat split; reflexivity.
Qed.

Lemma bus_traffic_without_refresh_is_inert_witness :
  let ins := [InWrite [REG_CONFIG; 7]; InRead; InWrite [REG_WDT];
              InWrite [REG_VERSION; 3]; InWrite []; InWrite [9; 9; 9]] in
  trace (run power_on ins) = trace power_on /\
  wdt_counter (run power_on ins) = wdt_counter power_on.
Proof.
  cbv zeta.
  destruct (bus_traffic_without_refresh_is_inert
              [InWrite [REG_CONFIG; 7]; InRead; InWrite [REG_WDT];
               InWrite [REG_VERSION; 3]; InWrite []; InWrite [9; 9; 9]]
              power_on)
    as (_ & _ & Ht & Hc & _); [reflexivity|].
  split; [exact Ht | exact Hc].
Defined.

(** X3: once asserted, the alert line stays asserted until a data write to
    the WDT register: no tick (also none that fires a reset or power-cycle
    pulse), read request, CONFIG write or other write transaction lowers
    it. *)
Theorem alert_latched_until_refresh (ins : list input) :
  forall s,
    existsb (data_write_to REG_WDT) ins = false ->
    alert_line s = true ->
    alert_line (run s ins) = true.
Proof.
  induction ins as [|i ins IH]; intros s H Ha; [exact Ha|].
  cbn [existsb] in H. apply orb_false_elim in H. destruct H as [Hi Hins].
  rewrite run_cons. apply IH; [exact Hins|].
  destruct i as [|bytes|]; cbn [step].
  - apply tick_keeps_alert, Ha.
  - unfold alert_line in *.
    destruct (write_transaction_frame bytes s) as (_ & _ & _ & Hf & _).
    destruct (Hf Hi) as (_ & Ho & _). rewrite Ho. exact Ha.
  - unfold alert_line in *. rewrite read_request_unfold. exact Ha.
Qed.

Lemma alert_latched_until_refresh_witness :
  let s := tick (write_transaction [REG_WDT; 1] power_on) in
  alert_line
    (run s (InWrite [REG_CONFIG; 0] :: InRead :: repeat InTick 300)) = true.
Proof.
  cbv zeta.
  apply (alert_latched_until_refresh
           (InWrite [REG_CONFIG; 0] :: InRead :: repeat InTick 300)
           (tick (write_transaction [REG_WDT; 1] power_on)));
    vm_compute; reflexivity.
Defined.

(** ** The port between handler runs *)

Lemma port_idle_lines s :
  port_idle s ->
  line PORTA_PIN_RESET (PORTA_OUT s) = false /\
  line PORTA_PIN_POWERCYCLE (PORTA_OUT s) = false.
Proof. intros [[-> | ->] _]; split; reflexivity. Qed.

Ltac port_idle_closed :=
  split; [first [left; reflexivity | right; reflexivity] | reflexivity].

Lemma tick_port_idle s : port_idle s -> port_idle (tick s).
Proof.
  destruct s as [c e rp cfg o d i rx tx tr]. unfold port_idle.
  mcu_fields. intros [Ho ->]. rewrite tick_unfold.
  destruct (expires _).
  - unfold escalation.
    destruct Ho as [-> | ->]; mcu_run;
      (mcu_case; [mcu_case | mcu_case; mcu_case]); port_idle_closed.
  - mcu_run. split; [exact Ho | reflexivity].
Qed.

Lemma write_transaction_port_idle bytes s :
  port_idle s -> port_idle (write_transaction bytes s).
Proof.
  destruct s as [c e rp cfg o d i rx tx tr]. unfold port_idle.
  mcu_fields. intros [Ho ->].
  destruct bytes as [|a [|b rest]].
  - rewrite write_empty. mcu_run. split; [exact Ho | reflexivity].
  - rewrite write_addr_only. mcu_run. split; [exact Ho | reflexivity].
  - rewrite write_addr_data. unfold apply_data. mcu_run.
    destruct (u8 a =? REG_WDT); [|destruct (u8 a =? REG_CONFIG)]; mcu_run.
    + destruct Ho as [-> | ->]; port_idle_closed.
    + split; [exact Ho | reflexivity].
    + split; [exact Ho | reflexivity].
Qed.

Lemma step_port_idle s i : port_idle s -> port_idle (step s i).
Proof.
  intro H. destruct i as [|bytes|]; cbn [step].
  - apply tick_port_idle, H.
  - apply write_transaction_port_idle, H.
  - unfold port_idle in *. rewrite read_request_unfold. exact H.
Qed.

Lemma run_port_idle ins : forall s, port_idle s -> port_idle (run s ins).
Proof.
  induction ins as [|i ins IH]; intros s H; [exact H|].
  rewrite run_cons. apply IH, step_port_idle, H.
Qed.

(** X4: after any sequence of ticks, write transactions and read requests
    from power-on, the reset and power-cycle lines are low, at most the
    alert line is high, and PORTA.DIR still configures the three lines as
    outputs: the two pulse lines are high only inside the tick handler. *)
Theorem pulse_lines_low_between_handlers (ins : list input) :
  port_idle (run power_on ins) /\
  line PORTA_PIN_RESET (PORTA_OUT (run power_on ins)) = false /\
  line PORTA_PIN_POWERCYCLE (PORTA_OUT (run power_on ins)) = false.
Proof.
  assert (H : port_idle (run power_on ins)).
  { apply run_port_idle. split; [left; reflexivity | reflexivity]. }
  split; [exact H | apply port_idle_lines, H].
Qed.

(** ** The pin functions *)

Lemma assert_pin_state p s :
  exec (assert_pin p) s =
  mkMcu (wdt_counter s) (wdt_expirations s) (register_pointer s)
        (config_reg s) (u8 (Z.lor (PORTA_OUT s) p))
        (u8 (Z.lor (PORTA_DIR s) p)) (SREG_I s) (Wire_rx s) (Wire_tx s)
        (trace s ++ [EvPortOut (u8 (Z.lor (PORTA_OUT s) p))]).
Proof. reflexivity. Qed.

Lemma deassert_pin_state p s :
  exec (deassert_pin p) s =
  mkMcu (wdt_counter s) (wdt_expirations s) (register_pointer s)
        (config_reg s) (u8 (Z.land (PORTA_OUT s) (Z.lnot p)))
        (u8 (Z.lor (PORTA_DIR s) p)) (SREG_I s) (Wire_rx s) (Wire_tx s)
        (trace s ++ [EvPortOut (u8 (Z.land (PORTA_OUT s) (Z.lnot p)))]).
Proof. reflexivity. Qed.

Lemma u8_testbit x k : 0 <= k < 8 -> Z.testbit (u8 x) k = Z.testbit x k.
Proof.
  intros [_ Hk]. unfold u8. change 256 with (2 ^ 8).
  apply Z.mod_pow2_bits_low. exact Hk.
Qed.

Lemma assert_pin_bits j s k :
  0 <= j -> 0 <= k < 8 ->
  Z.testbit (PORTA_OUT (exec (assert_pin (Z.shiftl 1 j)) s)) k =
    (Z.testbit (PORTA_OUT s) k || (j =? k))%bool /\
  Z.testbit (PORTA_DIR (exec (assert_pin (Z.shiftl 1 j)) s)) k =
    (Z.testbit (PORTA_DIR s) k || (j =? k))%bool.
Proof.
  intros Hj Hk. rewrite assert_pin_state. mcu_fields.
  rewrite !u8_testbit, !Z.lor_spec, Z.shiftl_1_l, Z.pow2_bits_eqb by lia.
  split; reflexivity.
Qed.

Lemma deassert_pin_bits j s k :
  0 <= j -> 0 <= k < 8 ->
  Z.testbit (PORTA_OUT (exec (deassert_pin (Z.shiftl 1 j)) s)) k =
    (Z.testbit (PORTA_OUT s) k && negb (j =? k))%bool /\
  Z.testbit (PORTA_DIR (exec (deassert_pin (Z.shiftl 1 j)) s)) k =
    (Z.testbit (PORTA_DIR s) k || (j =? k))%bool.
Proof.
  intros Hj Hk. rewrite deassert_pin_state. mcu_fields.
  rewrite !u8_testbit, Z.land_spec, Z.lor_spec, Z.lnot_spec, Z.shiftl_1_l,
    Z.pow2_bits_eqb by lia.
  split; reflexivity.
Qed.

(** X5: each of the six pin functions drives exactly its own line: bit k of
    PORTA.OUT (k in 0..7) after assert_reset, assert_alert or
    assert_powercycle is the old bit, or 1 for k = 3, 6 or 7 respectively;
    after the deassert function it is the old bit, or 0 for that k.  Both
    kinds set the line's PORTA.DIR bit and leave the other DIR bits. *)
Theorem pin_functions_drive_their_own_line (s : mcu) (k : Z) :
  0 <= k < 8 ->
  (Z.testbit (PORTA_OUT (exec assert_reset s)) k =
     (Z.testbit (PORTA_OUT s) k || (3 =? k))%bool /\
   Z.testbit (PORTA_OUT (exec deassert_reset s)) k =
     (Z.testbit (PORTA_OUT s) k && negb (3 =? k))%bool /\
   Z.testbit (PORTA_OUT (exec assert_alert s)) k =
     (Z.testbit (PORTA_OUT s) k || (6 =? k))%bool /\
   Z.testbit (PORTA_OUT (exec deassert_alert s)) k =
     (Z.testbit (PORTA_OUT s) k && negb (6 =? k))%bool /\
   Z.testbit (PORTA_OUT (exec assert_powercycle s)) k =
     (Z.testbit (PORTA_OUT s) k || (7 =? k))%bool /\
   Z.testbit (PORTA_OUT (exec deassert_powercycle s)) k =
     (Z.testbit (PORTA_OUT s) k && negb (7 =? k))%bool) /\
  (Z.testbit (PORTA_DIR (exec assert_reset s)) k =
     (Z.testbit (PORTA_DIR s) k || (3 =? k))%bool /\
   Z.testbit (PORTA_DIR (exec deassert_reset s)) k =
     (Z.testbit (PORTA_DIR s) k || (3 =? k))%bool /\
   Z.testbit (PORTA_DIR (exec assert_alert s)) k =
     (Z.testbit (PORTA_DIR s) k || (6 =? k))%bool /\
   Z.testbit (PORTA_DIR (exec deassert_alert s)) k =
     (Z.testbit (PORTA_DIR s) k || (6 =? k))%bool /\
   Z.testbit (PORTA_DIR (exec assert_powercycle s)) k =
     (Z.testbit (PORTA_DIR s) k || (7 =? k))%bool /\
   Z.testbit (PORTA_DIR (exec deassert_powercycle s)) k =
     (Z.testbit (PORTA_DIR s) k || (7 =? k))%bool).
Proof.
  intro Hk.
  unfold assert_reset, deassert_reset, assert_alert, deassert_alert,
    assert_powercycle, deassert_powercycle,
    PORTA_PIN_RESET, PORTA_PIN_ALERT, PORTA_PIN_POWERCYCLE.
  pose proof (assert_pin_bits 3 s k ltac:(lia) Hk) as [A3 A3'].
  pose proof (assert_pin_bits 6 s k ltac:(lia) Hk) as [A6 A6'].
  pose proof (assert_pin_bits 7 s k ltac:(lia) Hk) as [A7 A7'].
  pose proof (deassert_pin_bits 3 s k ltac:(lia) Hk) as [D3 D3'].
  pose proof (deassert_pin_bits 6 s k ltac:(lia) Hk) as [D6 D6'].
  pose proof (deassert_pin_bits 7 s k ltac:(lia) Hk) as [D7 D7'].
  repeat split; assumption.
Qed.

Lemma pin_functions_drive_their_own_line_witness :
  Z.testbit (PORTA_OUT (exec assert_reset power_on)) 3 =
    (Z.testbit (PORTA_OUT power_on) 3 || (3 =? 3))%bool /\
  Z.testbit (PORTA_OUT (exec deassert_alert power_on)) 7 =
    (Z.testbit (PORTA_OUT power_on) 7 && negb (6 =? 7))%bool.
Proof.
  assert (H3 : 0 <= 3 < 8) by lia.
  assert (H7 : 0 <= 7 < 8) by lia.
  split.
  - exact (proj1 (proj1 (pin_functions_drive_their_own_line power_on 3 H3))).
  - exact (proj1 (proj2 (proj2 (proj2 (proj1
             (pin_functions_drive_their_own_line power_on 7 H7)))))).
Defined.

(** ** Reading the register map *)

Lemma read_after_select s :
  Wire_tx (read_request s) =
  Wire_tx s ++
  [u8 (if register_pointer s =? REG_VERSION then FW_VERSION
       else if register_pointer s =? REG_CONFIG then config_reg s
       else if register_pointer s =? REG_WDT then wdt_counter s
       else 0)].
Proof. rewrite read_request_unfold, select_tx_value. reflexivity. Qed.

Lemma ticks_pointer_select n a rest s :
  register_pointer (ticks n (write_transaction (a :: rest) s)) = u8 a /\
  Wire_tx (ticks n (write_transaction (a :: rest) s)) = Wire_tx s.
Proof.
  destruct (ticks_frame n (write_transaction (a :: rest) s))
    as (Hp & _ & Ht).
  rewrite Hp, Ht, write_latches_pointer.
  split; [reflexivity | apply write_transaction_frame].
Qed.

(** X6: VERSION is constant and read-only: a write transaction addressed
    to register 0, with or without data bytes, changes no register but the
    pointer, and a read request after it, also after any number of ticks,
    is answered with 0x10 whatever the state was before. *)
Theorem version_reads_constant (rest : list Z) (n : nat) (s : mcu) :
  Wire_tx
    (read_request (ticks n (write_transaction (REG_VERSION :: rest) s))) =
  Wire_tx s ++ [0x10] /\
  wdt_counter (write_transaction (REG_VERSION :: rest) s) = wdt_counter s /\
  wdt_expirations (write_transaction (REG_VERSION :: rest) s) =
    wdt_expirations s /\
  config_reg (write_transaction (REG_VERSION :: rest) s) = config_reg s /\
  PORTA_OUT (write_transaction (REG_VERSION :: rest) s) = PORTA_OUT s /\
  trace (write_transaction (REG_VERSION :: rest) s) = trace s.
Proof.
  split.
  - rewrite read_after_select.
    destruct (ticks_pointer_select n REG_VERSION rest s) as [Hp Ht].
    rewrite Hp, Ht. reflexivity.
  - destruct (write_transaction_frame (REG_VERSION :: rest) s)
      as (He & _ & _ & Hw & Hc & _).
    assert (Hnw : data_write_to REG_WDT (InWrite (REG_VERSION :: rest)) =
                  false) by (destruct rest; reflexivity).
    assert (Hnc : data_write_to REG_CONFIG (InWrite (REG_VERSION :: rest)) =
                  false) by (destruct rest; reflexivity).
    destruct (Hw Hnw) as (Hcnt & Ho & _ & Ht).
    rewrite He, Hcnt, Ho, Ht, (Hc Hnc). repeat split; reflexivity.
Qed.

(** X7: addresses outside the register map are inert: for an address byte
    other than 0, 1 and 2 (as an 8-bit value), a write transaction changes
    only the Register Pointer whatever data follow, and a read request after
    it, also after any number of ticks, is answered with 0. *)
Theorem undefined_registers_read_zero
        (a : Z) (rest : list Z) (n : nat) (s : mcu) :
  u8 a <> REG_VERSION -> u8 a <> REG_CONFIG -> u8 a <> REG_WDT ->
  Wire_tx (read_request (ticks n (write_transaction (a :: rest) s))) =
    Wire_tx s ++ [0] /\
  write_transaction (a :: rest) s =
    mkMcu (wdt_counter s) (wdt_expirations s) (u8 a) (config_reg s)
          (PORTA_OUT s) (PORTA_DIR s) (SREG_I s) [] (Wire_tx s) (trace s).
Proof.
  intros Hv Hc Hw. split.
  - rewrite read_after_select.
    destruct (ticks_pointer_select n a rest s) as [Hp Ht].
    rewrite Hp, Ht.
    apply Z.eqb_neq in Hv. apply Z.eqb_neq in Hc. apply Z.eqb_neq in Hw.
    rewrite Hv, Hc, Hw. reflexivity.
  - destruct rest as [|d rest]; [reflexivity|].
    rewrite write_addr_data, apply_data_other by assumption.
    reflexivity.
Qed.

Lemma undefined_registers_read_zero_witness :
  Wire_tx (read_request (ticks 5 (write_transaction [3; 9; 9] power_on))) =
  Wire_tx power_on ++ [0].
Proof.
  refine (proj1 (undefined_registers_read_zero 3 [9; 9] 5 power_on _ _ _));
    vm_compute; discriminate.
Defined.

(** X8: reading the WDT register returns the running countdown: n ticks
    after a refresh with data byte d, with the pointer still on WDT, a read
    request is answered with (d - n) mod 256; the read itself does not
    refresh. *)
Theorem wdt_read_returns_countdown
        (d : Z) (rest : list Z) (n : nat) (s : mcu) :
  let s1 := ticks n (write_transaction (REG_WDT :: d :: rest) s) in
  Wire_tx (read_request s1) = Wire_tx s ++ [(d - Z.of_nat n) mod 256] /\
  wdt_counter (read_request s1) = wdt_counter s1 /\
  tick (read_request s1) =
    exec (Wire_write ((d - Z.of_nat n) mod 256)) (tick s1).
Proof.
  cbv zeta.
  set (s0 := write_transaction (REG_WDT :: d :: rest) s).
  assert (Hc : wdt_counter (ticks n s0) = (d - Z.of_nat n) mod 256).
  { pose proof (refresh_sets_counter d rest s) as H0. fold s0 in H0.
    destruct n as [|n].
    - change (ticks 0 s0) with s0. rewrite H0.
      change (Z.of_nat 0) with 0. rewrite Z.sub_0_r. reflexivity.
    - rewrite ticks_counter, H0.
      unfold u8. rewrite Zminus_mod_idemp_l. reflexivity. }
  destruct (ticks_pointer_select n REG_WDT (d :: rest) s) as [Hp Ht].
  fold s0 in Hp, Ht.
  assert (Hsel : fst (select_tx (ticks n s0)) = (d - Z.of_nat n) mod 256).
  { rewrite select_tx_value, Hp, Hc. reflexivity. }
  split; [|split].
  - rewrite read_request_unfold. mcu_fields. rewrite Hsel, Ht.
    unfold u8. rewrite Z.mod_mod by lia. reflexivity.
  - rewrite read_request_unfold. reflexivity.
  - rewrite read_request_unfold, Hsel.
    destruct (ticks n s0) as [c e rp cfg o dd i rx tx tr].
    rewrite !tick_unfold. unfold expires. mcu_fields.
    destruct (u8 (c - 1) =? 0); [|reflexivity].
    unfold escalation. mcu_run.
    mcu_case; [mcu_case | mcu_case; mcu_case]; reflexivity.
Qed.

(** X9: a read request puts exactly one byte on the bus and nothing else
    sends: over any input sequence the bytes handed to Wire.write grow by
    one 8-bit value per read request. *)
Theorem one_byte_per_read_request (ins : list input) :
  forall s,
    exists sent,
      Wire_tx (run s ins) = Wire_tx s ++ sent /\
      length sent = length (filter is_read ins) /\
      Forall byte sent.
Proof.
  induction ins as [|i ins IH]; intro s.
  - exists []. rewrite app_nil_r. repeat split; constructor.
  - rewrite run_cons. destruct (IH (step s i)) as (sent & Htx & Hlen & Hb).
    destruct i as [|bytes|]; cbn [step filter is_read] in *.
    + exists sent. rewrite Htx.
      destruct (tick_frame s) as (_ & _ & _ & _ & Ht). rewrite Ht.
      repeat split; assumption.
    + exists sent. rewrite Htx.
      destruct (write_transaction_frame bytes s) as (_ & Ht & _).
      rewrite Ht. repeat split; assumption.
    + exists (u8 (fst (select_tx s)) :: sent). rewrite Htx.
      rewrite read_request_unfold. mcu_fields.
      rewrite <- app_assoc. cbn [app length]. rewrite Hlen.
      repeat split; [constructor; [apply u8_byte | exact Hb]].
Qed.

(** X10: the critical sections end with an unconditional sei(): whatever
    the interrupt flag was on entry, a data write to the WDT or CONFIG
    register leaves interrupts enabled; ticks, read requests and every
    other write transaction leave the flag as they found it. *)
Theorem critical_section_exit_enables_interrupts (s : mcu) (i : input) :
  SREG_I (step s i) =
  if (data_write_to REG_WDT i || data_write_to REG_CONFIG i)%bool
  then true else SREG_I s.
Proof.
  destruct i as [|bytes|]; cbn [step].
  - apply tick_frame.
  - apply write_transaction_frame.
  - rewrite read_request_unfold. reflexivity.
Qed.

(** ** Timing of expirations *)

Lemma expires_after_some_ticks n s :
  expires (ticks (S n) s) = (u8 (wdt_counter s - Z.of_nat (S n) - 1) =? 0).
Proof.
  unfold expires. rewrite ticks_counter. unfold u8.
  rewrite Zminus_mod_idemp_l. reflexivity.
Qed.

Lemma quiet_after_expiration s :
  expires s = true ->
  forall k, (k < 255)%nat -> expires (ticks (S k) s) = false.
Proof.
  unfold expires at 1. intros H k Hk. apply Z.eqb_eq in H.
  rewrite expires_after_some_ticks. apply Z.eqb_neq.
  unfold u8 in *. Z.to_euclidean_division_equations. lia.
Qed.

Lemma expires_again_after_256 s :
  expires s = true -> expires (ticks 256 s) = true.
Proof.
  unfold expires at 1. intros H. apply Z.eqb_eq in H.
  rewrite expires_after_some_ticks. apply Z.eqb_eq.
  unfold u8 in *. Z.to_euclidean_division_equations. lia.
Qed.

(** X11: a refresh with data byte d, 1 <= d <= 255, sets the timeout to d
    ticks: the first d - 1 ticks after it do not expire and change neither
    Expiration Count nor any pin, and tick number d is the first to
    expire. *)
Theorem refresh_sets_timeout_in_ticks (d : Z) (rest : list Z) (s : mcu) :
  1 <= d <= 255 ->
  let s0 := write_transaction (REG_WDT :: d :: rest) s in
  (forall k, Z.of_nat k < d - 1 -> expires (ticks k s0) = false) /\
  (forall k, Z.of_nat k <= d - 1 ->
             wdt_counter (ticks k s0) = d - Z.of_nat k /\
             wdt_expirations (ticks k s0) = wdt_expirations s /\
             PORTA_OUT (ticks k s0) = PORTA_OUT s0 /\
             trace (ticks k s0) = trace s0) /\
  expires (ticks (Z.to_nat (d - 1)) s0) = true /\
  wdt_counter (ticks (Z.to_nat d) s0) = 0.
Proof.
  intro Hd. cbv zeta.
  set (s0 := write_transaction (REG_WDT :: d :: rest) s).
  assert (Hc : wdt_counter s0 = d).
  { unfold s0. rewrite refresh_sets_counter. apply u8_small.
    unfold byte. lia. }
  assert (He0 : wdt_expirations s0 = wdt_expirations s).
  { unfold s0. apply write_transaction_frame. }
  assert (Hb : byte (wdt_counter s0)) by (rewrite Hc; unfold byte; lia).
  assert (Hq : forall k, Z.of_nat k < d - 1 -> expires (ticks k s0) = false).
  { intros k Hk. rewrite expires_after_ticks, Hc by exact Hb.
    apply Z.eqb_neq. unfold u8. Z.to_euclidean_division_equations. lia. }
  split; [exact Hq|]. split; [|split].
  - intros k Hk.
    destruct (ticks_quiet k s0) as (He & Ho & Ht);
      [intros j Hj; apply Hq; lia|].
    rewrite He, Ho, Ht, He0. split; [|repeat split; reflexivity].
    destruct k as [|k].
    + change (ticks 0 s0) with s0. rewrite Hc.
      change (Z.of_nat 0) with 0. lia.
    + rewrite ticks_counter, Hc. apply u8_small. unfold byte. lia.
  - rewrite expires_after_ticks, Hc by exact Hb.
    rewrite Z2Nat.id by lia. replace (d - (d - 1) - 1) with 0 by lia.
    reflexivity.
  - destruct (Z.to_nat d) as [|m] eqn:Hm; [lia|].
    rewrite ticks_counter, Hc, <- Hm, Z2Nat.id by lia.
    rewrite Z.sub_diag. reflexivity.
Qed.

Lemma refresh_sets_timeout_in_ticks_witness :
  let s0 := write_transaction [REG_WDT; 3] power_on in
  expires (ticks 1 s0) = false /\
  wdt_counter (ticks 2 s0) = 3 - Z.of_nat 2 /\
  expires (ticks (Z.to_nat (3 - 1)) s0) = true.
Proof.
  cbv zeta.
  assert (Hd : 1 <= 3 <= 255) by lia.
  destruct (refresh_sets_timeout_in_ticks 3 [] power_on Hd)
    as (Hq & Hst & Hex & _).
  split; [|split].
  - apply Hq. vm_compute. reflexivity.
  - apply (Hst 2%nat). vm_compute. discriminate.
  - exact Hex.
Defined.

(** X12: left alone, Countdown wraps with period 256: after a tick that
    expires, none of the next 255 ticks expires and the 256th does,
    whatever value had been loaded before. *)
Theorem expirations_recur_every_256_ticks (s : mcu) :
  expires s = true ->
  (forall k, (k < 255)%nat -> expires (ticks (S k) s) = false) /\
  expires (ticks 256 s) = true.
Proof.
  intro H. split.
  - apply quiet_after_expiration, H.
  - apply expires_again_after_256, H.
Qed.

Lemma expirations_recur_every_256_ticks_witness :
  let s := write_transaction [REG_WDT; 1] power_on in
  expires (ticks 100 s) = false /\ expires (ticks 256 s) = true.
Proof.
  cbv zeta.
  assert (H : expires (write_transaction [REG_WDT; 1] power_on) = true)
    by reflexivity.
  destruct (expirations_recur_every_256_ticks _ H) as [Hq Hex].
  split; [apply (Hq 99%nat); lia | exact Hex].
Defined.

(** ** The stages of the escalation ladder *)

(** X13: expirations that drive nothing.  When the incremented count is 1
    and enable-alert is clear, or when it is not 1 and both enable-reset and
    enable-powercycle are clear, the expiring tick stores Countdown 0 and
    the incremented count and does nothing else: no store to the port, no
    delay, and the count is not reset. *)
Theorem silent_expiration (s : mcu) :
  expires s = true ->
  (u8 (wdt_expirations s + 1) = 1 /\
   truthy (Z.land (config_reg s) CONFIG_ENABLE_ALERT) = false) \/
  (u8 (wdt_expirations s + 1) <> 1 /\
   truthy (Z.land (config_reg s) CONFIG_ENABLE_RESET) = false /\
   truthy (Z.land (config_reg s) CONFIG_ENABLE_POWERCYCLE) = false) ->
  tick s =
  mkMcu 0 (u8 (wdt_expirations s + 1)) (register_pointer s) (config_reg s)
        (PORTA_OUT s) (PORTA_DIR s) (SREG_I s) (Wire_rx s) (Wire_tx s)
        (trace s).
Proof.
  intros Hexp H. rewrite tick_unfold, Hexp.
  unfold expires in Hexp. apply Z.eqb_eq in Hexp.
  destruct s as [c e rp cfg o d i rx tx tr]. mcu_fields_in_all.
  unfold escalation. mcu_run. rewrite Hexp.
  destruct H as [[H1 Ha] | (Hn1 & Hr & Hp)].
  - rewrite H1. change (1 =? 1) with true. mcu_run. rewrite Ha. reflexivity.
  - apply Z.eqb_neq in Hn1. rewrite Hn1. mcu_run. rewrite Hr. mcu_run.
    rewrite Hp. reflexivity.
Qed.

Lemma silent_expiration_witness :
  tick (mkMcu 1 0 REG_WDT 3 0 200 true [] [] []) =
    mkMcu 0 (u8 (0 + 1)) REG_WDT 3 0 200 true [] [] [] /\
  tick (mkMcu 1 7 REG_WDT 4 64 200 true [] [] []) =
    mkMcu 0 (u8 (7 + 1)) REG_WDT 4 64 200 true [] [] [].
Proof.
  split.
  - apply (silent_expiration (mkMcu 1 0 REG_WDT 3 0 200 true [] [] []));
      [reflexivity | left; split; reflexivity].
  - apply (silent_expiration (mkMcu 1 7 REG_WDT 4 64 200 true [] [] []));
      [reflexivity | right; repeat split; vm_compute; discriminate].
Defined.

(** X14: with exactly one of enable-reset and enable-powercycle set, an
    expiration whose incremented count is not 1 (0 after the 8-bit wrap
    included) emits exactly one pulse, on the enabled line: that line high,
    50 ms, that line low; the other pulse line and the alert line keep
    their level in both stores, and Expiration Count ends at 0. *)
Theorem one_flag_fires_one_pulse (s : mcu) :
  expires s = true ->
  u8 (wdt_expirations s + 1) <> 1 ->
  (truthy (Z.land (config_reg s) CONFIG_ENABLE_RESET) = true ->
   truthy (Z.land (config_reg s) CONFIG_ENABLE_POWERCYCLE) = false ->
   exists hi lo,
     emitted s (tick s) [EvPortOut hi; EvDelay 50; EvPortOut lo] /\
     line PORTA_PIN_RESET hi = true /\ line PORTA_PIN_RESET lo = false /\
     line PORTA_PIN_POWERCYCLE hi = line PORTA_PIN_POWERCYCLE (PORTA_OUT s) /\
     line PORTA_PIN_POWERCYCLE lo = line PORTA_PIN_POWERCYCLE (PORTA_OUT s) /\
     line PORTA_PIN_ALERT hi = line PORTA_PIN_ALERT (PORTA_OUT s) /\
     line PORTA_PIN_ALERT lo = line PORTA_PIN_ALERT (PORTA_OUT s) /\
     PORTA_OUT (tick s) = lo /\
     wdt_expirations (tick s) = 0) /\
  (truthy (Z.land (config_reg s) CONFIG_ENABLE_RESET) = false ->
   truthy (Z.land (config_reg s) CONFIG_ENABLE_POWERCYCLE) = true ->
   exists hi lo,
     emitted s (tick s) [EvPortOut hi; EvDelay 50; EvPortOut lo] /\
     line PORTA_PIN_POWERCYCLE hi = true /\
     line PORTA_PIN_POWERCYCLE lo = false /\
     line PORTA_PIN_RESET hi = line PORTA_PIN_RESET (PORTA_OUT s) /\
     line PORTA_PIN_RESET lo = line PORTA_PIN_RESET (PORTA_OUT s) /\
     line PORTA_PIN_ALERT hi = line PORTA_PIN_ALERT (PORTA_OUT s) /\
     line PORTA_PIN_ALERT lo = line PORTA_PIN_ALERT (PORTA_OUT s) /\
     PORTA_OUT (tick s) = lo /\
     wdt_expirations (tick s) = 0).
Proof.
  intros Hexp Hn1. rewrite tick_unfold, Hexp.
  apply Z.eqb_neq in Hn1. unfold emitted.
  destruct s as [c e rp cfg o d i rx tx tr]. mcu_fields_in_all.
  unfold escalation. mcu_run. rewrite Hn1. mcu_run.
  unfold PORTA_PIN_RESET, PORTA_PIN_POWERCYCLE, PORTA_PIN_ALERT.
  split; intros Hr Hp; rewrite Hr; mcu_run; rewrite Hp; mcu_run.
  - exists (u8 (Z.lor o (Z.shiftl 1 3))),
      (u8 (Z.land (u8 (Z.lor o (Z.shiftl 1 3))) (Z.lnot (Z.shiftl 1 3)))).
    rewrite <- !app_assoc.
    repeat first [rewrite line_clear by lia | rewrite line_set by lia].
    cbn [Z.eqb Pos.eqb negb].
    rewrite !orb_false_r, !andb_true_r, !orb_true_r, !andb_false_r.
    repeat split; reflexivity.
  - exists (u8 (Z.lor o (Z.shiftl 1 7))),
      (u8 (Z.land (u8 (Z.lor o (Z.shiftl 1 7))) (Z.lnot (Z.shiftl 1 7)))).
    rewrite <- !app_assoc.
    repeat first [rewrite line_clear by lia | rewrite line_set by lia].
    cbn [Z.eqb Pos.eqb negb].
    rewrite !orb_false_r, !andb_true_r, !orb_true_r, !andb_false_r.
    repeat split; reflexivity.
Qed.

Lemma one_flag_fires_one_pulse_witness :
  let s := mkMcu 1 1 REG_WDT 6 64 200 true [] [] [] in
  wdt_expirations (tick s) = 0 /\
  exists hi lo,
    emitted s (tick s) [EvPortOut hi; EvDelay 50; EvPortOut lo] /\
    line PORTA_PIN_POWERCYCLE hi = true /\
    line PORTA_PIN_POWERCYCLE lo = false.
Proof.
  cbv zeta.
  assert (Hexp : expires (mkMcu 1 1 REG_WDT 6 64 200 true [] [] []) = true)
    by reflexivity.
  assert (Hn1 : u8 (wdt_expirations
                      (mkMcu 1 1 REG_WDT 6 64 200 true [] [] []) + 1) <> 1)
    by (vm_compute; discriminate).
  destruct (one_flag_fires_one_pulse _ Hexp Hn1) as [_ Hpc].
  destruct (Hpc eq_refl eq_refl)
    as (hi & lo & Hem & Hhi & Hlo & _ & _ & _ & _ & _ & Hcount).
  split; [exact Hcount|].
  exists hi, lo. split; [exact Hem|]. split; [exact Hhi | exact Hlo].
Defined.

Lemma ticks_S_r n s : ticks (S n) s = ticks n (tick s).
Proof. unfold ticks. apply Nat.iter_succ_r. Qed.

Lemma powercycle_pulse_tick s :
  expires s = true ->
  u8 (wdt_expirations s + 1) <> 1 ->
  truthy (Z.land (config_reg s) CONFIG_ENABLE_POWERCYCLE) = true ->
  exists evs,
    emitted s (tick s) evs /\ pulse PORTA_PIN_POWERCYCLE 50 evs /\
    wdt_expirations (tick s) = 0.
Proof.
  intros Hexp Hn1 Hp. rewrite tick_unfold, Hexp.
  apply Z.eqb_neq in Hn1. unfold emitted.
  destruct s as [c e rp cfg o d i rx tx tr]. mcu_fields_in_all.
  unfold escalation. mcu_run. rewrite Hn1. mcu_run.
  destruct (truthy (Z.land cfg CONFIG_ENABLE_RESET)); mcu_run;
    rewrite Hp; mcu_run.
  - set (r_hi := u8 (Z.lor o PORTA_PIN_RESET)).
    set (r_lo := u8 (Z.land r_hi (Z.lnot PORTA_PIN_RESET))).
    set (p_hi := u8 (Z.lor r_lo PORTA_PIN_POWERCYCLE)).
    set (p_lo := u8 (Z.land p_hi (Z.lnot PORTA_PIN_POWERCYCLE))).
    exists [EvPortOut r_hi; EvDelay 50; EvPortOut r_lo;
            EvPortOut p_hi; EvDelay 50; EvPortOut p_lo].
    split; [rewrite <- !app_assoc; reflexivity|]. split; [|reflexivity].
    exists [EvPortOut r_hi; EvDelay 50; EvPortOut r_lo], p_hi, p_lo, [].
    split; [reflexivity|]. subst p_hi p_lo. unfold PORTA_PIN_POWERCYCLE.
    split.
    + rewrite line_set by lia. apply orb_true_r.
    + rewrite line_clear by lia. apply andb_false_r.
  - set (p_hi := u8 (Z.lor o PORTA_PIN_POWERCYCLE)).
    set (p_lo := u8 (Z.land p_hi (Z.lnot PORTA_PIN_POWERCYCLE))).
    exists [EvPortOut p_hi; EvDelay 50; EvPortOut p_lo].
    split; [rewrite <- !app_assoc; reflexivity|]. split; [|reflexivity].
    exists [], p_hi, p_lo, [].
    split; [reflexivity|]. subst p_hi p_lo. unfold PORTA_PIN_POWERCYCLE.
    split.
    + rewrite line_set by lia. apply orb_true_r.
    + rewrite line_clear by lia. apply andb_false_r.
Qed.

(** Two expirations in a row, alert and power-cycle enabled, starting from
    Expiration Count 0. *)
Lemma ladder_from_first_expiration (s : mcu) :
  wdt_expirations s = 0 ->
  expires s = true ->
  truthy (Z.land (config_reg s) CONFIG_ENABLE_ALERT) = true ->
  truthy (Z.land (config_reg s) CONFIG_ENABLE_POWERCYCLE) = true ->
  let s1 := tick s in
  let s2 := ticks 256 s1 in
  emitted s s1 [EvPortOut (u8 (Z.lor (PORTA_OUT s) PORTA_PIN_ALERT))] /\
  alert_line s1 = true /\ wdt_expirations s1 = 1 /\
  (forall k, (k <= 255)%nat ->
             wdt_expirations (ticks k s1) = 1 /\
             trace (ticks k s1) = trace s1) /\
  (exists evs, emitted s1 s2 evs /\ pulse PORTA_PIN_POWERCYCLE 50 evs) /\
  wdt_expirations s2 = 0 /\
  alert_line s2 = true.
Proof.
  intros He Hexp Ha Hp. cbv zeta.
  destruct (first_expiration_asserts_alert s He Hexp Ha) as (Hem1 & Hal & He1).
  assert (Hq : forall k, (k < 255)%nat -> expires (ticks k (tick s)) = false).
  { intros k Hk. rewrite <- ticks_S_r.
    apply quiet_after_expiration; assumption. }
  assert (Hquiet : forall k, (k <= 255)%nat ->
             wdt_expirations (ticks k (tick s)) = 1 /\
             trace (ticks k (tick s)) = trace (tick s)).
  { intros k Hk.
    destruct (ticks_quiet k (tick s)) as (Hke & _ & Hkt);
      [intros j Hj; apply Hq; lia|].
    rewrite Hke, Hkt, He1. split; reflexivity. }
  split; [exact Hem1|]. split; [exact Hal|]. split; [exact He1|].
  split; [exact Hquiet|].
  destruct (Hquiet 255%nat (Nat.le_refl _)) as [He255 Ht255].
  assert (Hexp255 : expires (ticks 255 (tick s)) = true).
  { rewrite <- ticks_S_r. apply expires_again_after_256, Hexp. }
  assert (Hcfg : config_reg (ticks 255 (tick s)) = config_reg s).
  { destruct (ticks_frame 255 (tick s)) as (_ & Hc & _).
    destruct (tick_frame s) as (_ & Hc' & _). rewrite Hc, Hc'. reflexivity. }
  destruct (powercycle_pulse_tick (ticks 255 (tick s)))
    as (evs & Hem & Hpulse & Hzero).
  - exact Hexp255.
  - rewrite He255. vm_compute. discriminate.
  - rewrite Hcfg. exact Hp.
  - rewrite (ticks_S 255 (tick s)).
    split; [|split].
    + exists evs. split; [|exact Hpulse].
      unfold emitted in *. rewrite Hem, Ht255. reflexivity.
    + exact Hzero.
    + apply tick_keeps_alert, ticks_keep_alert, Hal.
Qed.

(** X15: two missed timeouts in a row, with enable-alert and
    enable-powercycle set and Expiration Count 0 at the first: the first
    expiring tick asserts the alert line and makes the count 1; the next 255
    ticks change neither the count nor any pin; the 256th tick after the
    first expiration emits a power-cycle pulse and resets the count to 0,
    and the alert line is still asserted after it. *)
Theorem alert_then_powercycle_256_ticks_later (s : mcu) :
  wdt_expirations s = 0 ->
  expires s = true ->
  truthy (Z.land (config_reg s) CONFIG_ENABLE_ALERT) = true ->
  truthy (Z.land (config_reg s) CONFIG_ENABLE_POWERCYCLE) = true ->
  let s1 := tick s in
  let s2 := ticks 256 s1 in
  emitted s s1 [EvPortOut (u8 (Z.lor (PORTA_OUT s) PORTA_PIN_ALERT))] /\
  alert_line s1 = true /\ wdt_expirations s1 = 1 /\
  (forall k, (k <= 255)%nat ->
             wdt_expirations (ticks k s1) = 1 /\
             trace (ticks k s1) = trace s1) /\
  (exists evs, emitted s1 s2 evs /\ pulse PORTA_PIN_POWERCYCLE 50 evs) /\
  wdt_expirations s2 = 0 /\
  alert_line s2 = true.
Proof. exact (ladder_from_first_expiration s). Qed.

Lemma alert_then_powercycle_256_ticks_later_witness :
  let s := write_transaction [REG_WDT; 1] power_on in
  alert_line (tick s) = true /\
  wdt_expirations (ticks 256 (tick s)) = 0 /\
  alert_line (ticks 256 (tick s)) = true.
Proof.
  cbv zeta.
  destruct (alert_then_powercycle_256_ticks_later
              (write_transaction [REG_WDT; 1] power_on)
              eq_refl eq_refl eq_refl eq_refl)
    as (_ & Hal & _ & _ & _ & Hz & Hal2).
  split; [exact Hal|]. split; [exact Hz | exact Hal2].
Defined.

(** ** A host that refreshes in time *)

Lemma run_app s a b : run s (a ++ b) = run (run s a) b.
Proof. unfold run. apply fold_left_app. Qed.

Lemma run_ticks g : forall s, run s (repeat InTick g) = ticks g s.
Proof.
  induction g as [|g IH]; intro s; [reflexivity|].
  cbn [repeat]. rewrite run_cons, ticks_S_r. cbn [step]. apply IH.
Qed.

Lemma quiet_ticks_before_timeout g s :
  1 <= wdt_counter s <= 255 ->
  Z.of_nat g < wdt_counter s ->
  wdt_expirations (ticks g s) = wdt_expirations s /\
  PORTA_OUT (ticks g s) = PORTA_OUT s /\
  trace (ticks g s) = trace s.
Proof.
  intros Hc Hg. apply ticks_quiet. intros k Hk.
  rewrite expires_after_ticks by (unfold byte; lia).
  apply Z.eqb_neq. unfold u8. Z.to_euclidean_division_equations. lia.
Qed.

Lemma deassert_low_line_keeps_port k o :
  0 <= k < 8 -> byte o -> line (Z.shiftl 1 k) o = false ->
  u8 (Z.land o (Z.lnot (Z.shiftl 1 k))) = o.
Proof.
  intros Hk Hb Hlow. rewrite line_testbit in Hlow by lia.
  transitivity (u8 o); [|apply u8_small; exact Hb].
  apply Z.bits_inj'. intros n Hn. unfold u8. change 256 with (2 ^ 8).
  destruct (Z.ltb_spec n 8) as [Hlt|Hge].
  - rewrite !Z.mod_pow2_bits_low by lia.
    rewrite Z.land_spec, Z.lnot_spec, Z.shiftl_1_l, Z.pow2_bits_eqb by lia.
    destruct (Z.eqb_spec k n) as [->|_].
    + rewrite Hlow. reflexivity.
    + apply andb_true_r.
  - rewrite !Z.mod_pow2_bits_high by lia. reflexivity.
Qed.

Lemma schedule_keeps_quiet d gaps :
  1 <= d <= 255 ->
  Forall (fun g => Z.of_nat g < d) gaps ->
  forall s,
    wdt_counter s = d -> byte (PORTA_OUT s) -> alert_line s = false ->
    wdt_counter (run s (refresh_schedule d gaps)) = d /\
    wdt_expirations (run s (refresh_schedule d gaps)) = wdt_expirations s /\
    PORTA_OUT (run s (refresh_schedule d gaps)) = PORTA_OUT s /\
    trace (run s (refresh_schedule d gaps)) =
      trace s ++ repeat (EvPortOut (PORTA_OUT s)) (length gaps).
Proof.
  intros Hd Hgaps. induction Hgaps as [|g gaps Hg _ IH]; intros s Hc Hb Ha.
  - cbn [refresh_schedule flat_map run fold_left length repeat].
    rewrite app_nil_r. repeat split; [exact Hc].
  - unfold refresh_schedule. cbn [flat_map].
    fold (refresh_schedule d gaps).
    rewrite <- app_assoc, run_app, run_ticks. cbn [app]. rewrite run_cons.
    cbn [step].
    destruct (quiet_ticks_before_timeout g s) as (He & Ho & Ht);
      [lia | lia |].
    assert (Hkeep : u8 (Z.land (PORTA_OUT s) (Z.lnot PORTA_PIN_ALERT)) =
                    PORTA_OUT s).
    { apply deassert_low_line_keeps_port; [lia | exact Hb | exact Ha]. }
    pose proof (refresh_state d [] (ticks g s)) as Hr.
    rewrite He, Ho, Ht, Hkeep in Hr.
    destruct (IH (write_transaction [REG_WDT; d] (ticks g s)))
      as (Hc' & He' & Ho' & Ht').
    + rewrite Hr. apply u8_small. unfold byte. lia.
    + rewrite Hr. exact Hb.
    + unfold alert_line. rewrite Hr. exact Ha.
    + rewrite Hc', He', Ho', Ht', Hr. mcu_fields.
      rewrite <- app_assoc. repeat split; reflexivity.
Qed.

(** X16: a host that refreshes in time is never escalated.  After a refresh
    with data byte d, 1 <= d <= 255, let the host repeat any number of
    rounds of fewer than d ticks followed by a refresh with d: Expiration
    Count stays what it was, the port keeps the value the first refresh
    left (alert low), and the only events are the refreshes' own stores of
    that value to PORTA.OUT: no alert, no pulse, no delay. *)
Theorem timely_refreshes_prevent_escalation
        (d : Z) (rest : list Z) (gaps : list nat) (s : mcu) :
  1 <= d <= 255 ->
  Forall (fun g => Z.of_nat g < d) gaps ->
  let s0 := write_transaction (REG_WDT :: d :: rest) s in
  let s' := run s0 (refresh_schedule d gaps) in
  wdt_counter s' = d /\
  wdt_expirations s' = wdt_expirations s /\
  PORTA_OUT s' = PORTA_OUT s0 /\
  alert_line s' = false /\
  trace s' = trace s0 ++ repeat (EvPortOut (PORTA_OUT s0)) (length gaps).
Proof.
  intros Hd Hgaps. cbv zeta.
  set (s0 := write_transaction (REG_WDT :: d :: rest) s).
  assert (Ha0 : alert_line s0 = false) by apply refresh_deasserts_alert.
  assert (Hc0 : wdt_counter s0 = d).
  { unfold s0. rewrite refresh_sets_counter. apply u8_small.
    unfold byte. lia. }
  assert (Hb0 : byte (PORTA_OUT s0)).
  { unfold s0. rewrite refresh_state. apply u8_byte. }
  assert (He0 : wdt_expirations s0 = wdt_expirations s).
  { unfold s0. apply write_transaction_frame. }
  destruct (schedule_keeps_quiet d gaps Hd Hgaps s0 Hc0 Hb0 Ha0)
    as (Hc & He & Ho & Ht).
  rewrite Hc, He, Ho, Ht, He0. repeat split; try reflexivity.
  unfold alert_line. rewrite Ho. exact Ha0.
Qed.

Lemma timely_refreshes_prevent_escalation_witness :
  let s0 := write_transaction [REG_WDT; 4] power_on in
  let s' := run s0 (refresh_schedule 4 [3; 0; 2; 3]%nat) in
  wdt_expirations s' = wdt_expirations power_on /\
  trace s' = trace s0 ++ repeat (EvPortOut (PORTA_OUT s0)) 4.
Proof.
  cbv zeta.
  assert (Hd : 1 <= 4 <= 255) by lia.
  assert (Hg : Forall (fun g => Z.of_nat g < 4) [3; 0; 2; 3]%nat).
  { repeat constructor. }
  destruct (timely_refreshes_prevent_escalation 4 [] [3; 0; 2; 3]%nat
              power_on Hd Hg) as (_ & He & _ & _ & Ht).
  split; [exact He | exact Ht].
Defined.

(** ** Refreshes and the bus, once more *)

(** X23: a refresh is idempotent: a second refresh with the same data
    byte, right after the first, leaves every register, the port and the
    interrupt flag as the first one left them; all it adds is one more store
    of the same value to PORTA.OUT. *)
Theorem repeated_refresh_is_idempotent (d : Z) (rest rest' : list Z) (s : mcu) :
  let s1 := write_transaction (REG_WDT :: d :: rest) s in
  write_transaction (REG_WDT :: d :: rest') s1 =
  mkMcu (wdt_counter s1) (wdt_expirations s1) (register_pointer s1)
        (config_reg s1) (PORTA_OUT s1) (PORTA_DIR s1) (SREG_I s1)
        (Wire_rx s1) (Wire_tx s1) (trace s1 ++ [EvPortOut (PORTA_OUT s1)]).
Proof.
  cbv zeta.
  destruct (refresh_idempotent d rest rest' s) as (_ & _ & _ & _ & Ho & Hd).
  rewrite (refresh_state d rest' _) in Ho, Hd |- *.
  mcu_fields_in_all. rewrite Ho, Hd.
  rewrite (refresh_state d rest s). reflexivity.
Qed.

(** X24: no bus transaction changes Expiration Count: over any sequence of
    write transactions (refreshes included) and read requests the count
    keeps its value, so only ticks move it. *)
Theorem bus_never_changes_expiration_count (ins : list input) :
  forall s,
    existsb is_tick ins = false ->
    wdt_expirations (run s ins) = wdt_expirations s.
Proof.
  induction ins as [|i ins IH]; intros s H; [reflexivity|].
  cbn [existsb] in H. apply orb_false_elim in H. destruct H as [Hi Hins].
  rewrite run_cons, IH by exact Hins.
  destruct i as [|bytes|]; cbn [step].
  - discriminate Hi.
  - apply write_transaction_frame.
  - apply read_request_frame.
Qed.

Lemma bus_never_changes_expiration_count_witness :
  let s := tick (write_transaction [REG_WDT; 1] power_on) in
  wdt_expirations
    (run s [InWrite [REG_WDT; 200]; InRead; InWrite [REG_CONFIG; 0];
            InWrite [REG_WDT; 0; 0]]) =
  wdt_expirations s.
Proof.
  cbv zeta.
  apply (bus_never_changes_expiration_count
           [InWrite [REG_WDT; 200]; InRead; InWrite [REG_CONFIG; 0];
            InWrite [REG_WDT; 0; 0]]
           (tick (write_transaction [REG_WDT; 1] power_on))).
  reflexivity.
Defined.

(** ** Ticks with every enable flag cleared *)

Lemma tick_all_flags_clear s :
  config_reg s = 0 ->
  config_reg (tick s) = 0 /\
  PORTA_OUT (tick s) = PORTA_OUT s /\
  trace (tick s) = trace s.
Proof.
  intro Hc. rewrite tick_unfold.
  destruct s as [c e rp cfg o d i rx tx tr]. mcu_fields_in_all. subst cfg.
  destruct (expires _); [|repeat split; reflexivity].
  unfold escalation. mcu_run.
  destruct (u8 (e + 1) =? 1); repeat split; reflexivity.
Qed.

Lemma ticks_all_flags_clear n s :
  config_reg s = 0 ->
  config_reg (ticks n s) = 0 /\
  PORTA_OUT (ticks n s) = PORTA_OUT s /\
  trace (ticks n s) = trace s.
Proof.
  intro Hc. induction n as [|n (IHc & IHo & IHt)]; [repeat split; exact Hc|].
  rewrite ticks_S.
  destruct (tick_all_flags_clear (ticks n s) IHc) as (Hc' & Ho & Ht).
  rewrite Hc', Ho, Ht. repeat split; assumption.
Qed.

(** * Properties of the driver on top of the firmware *)

Module DriverProps.

Import Driver.
Import Ascii.

Ltac host_unfold :=
  cbv [attiny_wdt_start attiny_wdt_stop attiny_wdt_value_show
       regmap_write regmap_read transfer on_device printk hbind hret
       device bus klog].

Lemma regmap_write_ok reg val d b l :
  reg <= REG_STATUS -> next_ok b ->
  regmap_write reg val (mkHost d b l) =
  (0, mkHost (write_transaction [reg; val] d) (tl b) l).
Proof.
  intros Hreg Hok. host_unfold.
  apply Z.ltb_ge in Hreg. rewrite Hreg.
  destruct b as [|[e|] b]; [reflexivity | destruct Hok | reflexivity].
Qed.

Lemma regmap_write_fails reg val d e b l :
  reg <= REG_STATUS ->
  regmap_write reg val (mkHost d (Some e :: b) l) =
  (- Z.pos e, mkHost d b l).
Proof.
  intros Hreg. host_unfold.
  apply Z.ltb_ge in Hreg. rewrite Hreg. reflexivity.
Qed.

Lemma control_write_device v d :
  byte v ->
  write_transaction [REG_CONTROL; v] d =
  mkMcu (wdt_counter d) (wdt_expirations d) REG_CONTROL v (PORTA_OUT d)
        (PORTA_DIR d) true [] (Wire_tx d) (trace d).
Proof.
  intro Hv. rewrite write_addr_data, apply_data_config by reflexivity.
  mcu_unfold. rewrite u8_idem, (u8_small v Hv). reflexivity.
Qed.

Lemma start_on_working_bus id d b l :
  next_ok b -> next_ok (tl b) ->
  attiny_wdt_start id (mkHost d b l) =
  (0, mkHost (write_transaction [REG_TIMER; 255]
                (write_transaction [REG_CONTROL; 6] d))
             (tl (tl b)) (l ++ [InfoStarting id])).
Proof.
  intros H1 H2. unfold attiny_wdt_start, hbind.
  change (Z.lor CONTROL_ENABLE_POWERCYCLE CONTROL_ENABLE_ALERT) with 6.
  rewrite regmap_write_ok by (vm_compute; congruence || exact H1).
  rewrite regmap_write_ok by (vm_compute; congruence || exact H2).
  reflexivity.
Qed.

(** X17: on a working bus attiny_wdt_start programs the chip and reloads
    it: afterwards Configuration is 6 (alert and power-cycle enabled, reset
    disabled), Countdown is 255, the alert line is low and the Register
    Pointer is on the timer register; Expiration Count is what it was.  The
    call returns 0 and logs the starting message only. *)
Theorem start_programs_the_watchdog (id : Z) (h : host) :
  next_ok (bus h) -> next_ok (tl (bus h)) ->
  fst (attiny_wdt_start id h) = 0 /\
  klog (snd (attiny_wdt_start id h)) = klog h ++ [InfoStarting id] /\
  config_reg (device (snd (attiny_wdt_start id h))) = 6 /\
  truthy (Z.land (config_reg (device (snd (attiny_wdt_start id h))))
                 CONFIG_ENABLE_RESET) = false /\
  wdt_counter (device (snd (attiny_wdt_start id h))) = 255 /\
  alert_line (device (snd (attiny_wdt_start id h))) = false /\
  register_pointer (device (snd (attiny_wdt_start id h))) = REG_TIMER /\
  wdt_expirations (device (snd (attiny_wdt_start id h))) =
    wdt_expirations (device h).
Proof.
  destruct h as [d b l]. cbn [bus device klog]. intros H1 H2.
  rewrite start_on_working_bus by assumption. cbn [fst snd device klog].
  split; [reflexivity|]. split; [reflexivity|].
  rewrite control_write_device by (unfold byte; lia).
  change REG_TIMER with REG_WDT.
  split; [rewrite refresh_state; reflexivity|].
  split; [rewrite refresh_state; reflexivity|].
  split; [rewrite refresh_state; reflexivity|].
  split; [apply refresh_deasserts_alert|].
  split; rewrite refresh_state; reflexivity.
Qed.

Lemma start_programs_the_watchdog_witness :
  let h := mkHost (tick (write_transaction [2; 1] power_on)) [None] [] in
  config_reg (device (snd (attiny_wdt_start 0 h))) = 6 /\
  wdt_counter (device (snd (attiny_wdt_start 0 h))) = 255 /\
  wdt_expirations (device (snd (attiny_wdt_start 0 h))) =
    wdt_expirations (device h).
Proof.
  cbv zeta.
  destruct (start_programs_the_watchdog
              0 (mkHost (tick (write_transaction [2; 1] power_on)) [None] [])
              I I)
    as (_ & _ & Hc & _ & Ht & _ & _ & He).
  split; [exact Hc|]. split; [exact Ht | exact He].
Defined.

(** X18: attiny_wdt_start and attiny_wdt_stop report success whatever the
    bus does.  In start only the result of the second write is looked at:
    when the CONTROL write fails and the TIMER write succeeds, nothing is
    logged but the starting message, the chip is reloaded and its
    Configuration is left as it was; when the TIMER write fails the error
    is logged and Countdown is not reloaded.  A failed write in stop is
    logged and leaves the chip untouched. *)
Theorem start_and_stop_swallow_bus_errors (id : Z) (h : host) :
  fst (attiny_wdt_start id h) = 0 /\
  fst (attiny_wdt_stop id h) = 0 /\
  (forall e rest,
      bus h = Some e :: rest -> next_ok rest ->
      klog (snd (attiny_wdt_start id h)) = klog h ++ [InfoStarting id] /\
      config_reg (device (snd (attiny_wdt_start id h))) =
        config_reg (device h) /\
      wdt_counter (device (snd (attiny_wdt_start id h))) = 255) /\
  (forall e rest,
      bus h = None :: Some e :: rest ->
      klog (snd (attiny_wdt_start id h)) =
        klog h ++ [ErrWriteFailed (- Z.pos e); InfoStarting id] /\
      config_reg (device (snd (attiny_wdt_start id h))) = 6 /\
      wdt_counter (device (snd (attiny_wdt_start id h))) =
        wdt_counter (device h)) /\
  (forall e rest,
      bus h = Some e :: rest ->
      klog (snd (attiny_wdt_stop id h)) =
        klog h ++ [ErrWriteFailed (- Z.pos e); InfoStopping id] /\
      device (snd (attiny_wdt_stop id h)) = device h).
Proof.
  destruct h as [d b l]. cbn [bus device klog].
  split; [|split; [|split; [|split]]].
  - host_unfold.
    change (REG_STATUS <? REG_CONTROL) with false.
    change (REG_STATUS <? REG_TIMER) with false.
    destruct b as [|[e|] [|[e'|] b]]; reflexivity.
  - host_unfold. change (REG_STATUS <? REG_CONTROL) with false.
    destruct b as [|[e|] b]; reflexivity.
  - intros e rest -> Hok. unfold attiny_wdt_start, hbind.
    rewrite regmap_write_fails by (vm_compute; congruence).
    rewrite regmap_write_ok by (vm_compute; congruence || exact Hok).
    cbn [truthy Z.eqb negb]. host_unfold. cbn [fst snd].
    change REG_TIMER with REG_WDT. rewrite refresh_state.
    repeat split; reflexivity.
  - intros e rest ->. unfold attiny_wdt_start, hbind.
    change (Z.lor CONTROL_ENABLE_POWERCYCLE CONTROL_ENABLE_ALERT) with 6.
    rewrite regmap_write_ok by (vm_compute; congruence || exact I).
    cbn [tl]. rewrite regmap_write_fails by (vm_compute; congruence).
    cbn [truthy Z.eqb Z.opp negb]. host_unfold. cbn [fst snd].
    rewrite control_write_device by (unfold byte; lia).
    rewrite <- app_assoc. repeat split; reflexivity.
  - intros e rest ->. unfold attiny_wdt_stop, hbind.
    rewrite regmap_write_fails by (vm_compute; congruence).
    cbn [truthy Z.eqb Z.opp negb]. host_unfold. cbn [fst snd].
    rewrite <- app_assoc. split; reflexivity.
Qed.

Lemma start_and_stop_swallow_bus_errors_witness :
  let h := mkHost power_on [Some 5%positive] [] in
  klog (snd (attiny_wdt_start 1 h)) = klog h ++ [InfoStarting 1] /\
  klog (snd (attiny_wdt_stop 1 h)) =
    klog h ++ [ErrWriteFailed (- Z.pos 5); InfoStopping 1].
Proof.
  cbv zeta.
  destruct (start_and_stop_swallow_bus_errors
              1 (mkHost power_on [Some 5%positive] []))
    as (_ & _ & Hfirst & _ & Hstop).
  split.
  - exact (proj1 (Hfirst 5%positive [] eq_refl I)).
  - exact (proj1 (Hstop 5%positive [] eq_refl)).
Defined.

Lemma stop_on_working_bus id d b l :
  next_ok b ->
  attiny_wdt_stop id (mkHost d b l) =
  (0, mkHost (write_transaction [REG_CONTROL; 0] d) (tl b)
             (l ++ [InfoStopping id])).
Proof.
  intros H1. unfold attiny_wdt_stop, hbind.
  rewrite regmap_write_ok by (vm_compute; congruence || exact H1).
  reflexivity.
Qed.

(** X19: on a working bus attiny_wdt_stop clears every enable flag and
    nothing else: from then on no tick drives a pin, however many follow, so
    no alert and no pulse can fire; but the port stays as it was, so an
    alert that was asserted stays asserted, Expiration Count is not
    cleared, and Countdown keeps running. *)
Theorem stop_disarms_without_clearing (id : Z) (h : host) (n : nat) :
  next_ok (bus h) ->
  config_reg (device (snd (attiny_wdt_stop id h))) = 0 /\
  trace (ticks n (device (snd (attiny_wdt_stop id h)))) = trace (device h) /\
  PORTA_OUT (ticks n (device (snd (attiny_wdt_stop id h)))) =
    PORTA_OUT (device h) /\
  alert_line (ticks n (device (snd (attiny_wdt_stop id h)))) =
    alert_line (device h) /\
  wdt_expirations (device (snd (attiny_wdt_stop id h))) =
    wdt_expirations (device h) /\
  wdt_counter (ticks (S n) (device (snd (attiny_wdt_stop id h)))) =
    (wdt_counter (device h) - Z.of_nat (S n)) mod 256.
Proof.
  destruct h as [d b l]. cbn [bus device klog]. intros H1.
  rewrite stop_on_working_bus by assumption. cbn [fst snd device].
  rewrite control_write_device by (unfold byte; lia).
  set (d' := mkMcu (wdt_counter d) (wdt_expirations d) REG_CONTROL 0
                   (PORTA_OUT d) (PORTA_DIR d) true [] (Wire_tx d) (trace d)).
  destruct (ticks_all_flags_clear n d' eq_refl) as (_ & Ho & Ht).
  split; [reflexivity|]. split; [exact Ht|]. split; [exact Ho|].
  split; [unfold alert_line; rewrite Ho; reflexivity|].
  split; [reflexivity|]. apply (ticks_counter n d').
Qed.

Lemma stop_disarms_without_clearing_witness :
  let h := mkHost (tick (write_transaction [2; 1] power_on)) [] [] in
  alert_line (ticks 1000 (device (snd (attiny_wdt_stop 0 h)))) =
    alert_line (device h) /\
  trace (ticks 1000 (device (snd (attiny_wdt_stop 0 h)))) = trace (device h).
Proof.
  cbv zeta.
  destruct (stop_disarms_without_clearing
              0 (mkHost (tick (write_transaction [2; 1] power_on)) [] [])
              1000 I)
    as (_ & Ht & _ & Ha & _).
  split; [exact Ha | exact Ht].
Defined.

(** X20: a host that starts the watchdog and then goes silent, the chip's
    Expiration Count being 0: for 254 ticks nothing happens, tick 255
    asserts the alert line, the next 255 ticks again change no pin, and the
    256th tick after the alert emits a power-cycle pulse and resets
    Expiration Count to 0. *)
Theorem start_then_silence_escalates (id : Z) (h : host) :
  next_ok (bus h) -> next_ok (tl (bus h)) ->
  wdt_expirations (device h) = 0 ->
  (forall k, (k <= 254)%nat ->
     trace (ticks k (device (snd (attiny_wdt_start id h)))) =
       trace (device (snd (attiny_wdt_start id h))) /\
     alert_line (ticks k (device (snd (attiny_wdt_start id h)))) = false) /\
  alert_line (ticks 255 (device (snd (attiny_wdt_start id h)))) = true /\
  (forall k, (k <= 255)%nat ->
     trace (ticks k (ticks 255 (device (snd (attiny_wdt_start id h))))) =
       trace (ticks 255 (device (snd (attiny_wdt_start id h))))) /\
  (exists evs,
     emitted (ticks 255 (device (snd (attiny_wdt_start id h))))
             (ticks 256 (ticks 255 (device (snd (attiny_wdt_start id h)))))
             evs /\
     pulse PORTA_PIN_POWERCYCLE 50 evs) /\
  wdt_expirations
    (ticks 256 (ticks 255 (device (snd (attiny_wdt_start id h))))) = 0.
Proof.
  destruct h as [d b l]. cbn [bus device klog]. intros H1 H2 He.
  rewrite start_on_working_bus by assumption. cbn [fst snd device].
  rewrite control_write_device by (unfold byte; lia).
  change REG_TIMER with REG_WDT.
  set (d0 := mkMcu (wdt_counter d) (wdt_expirations d) REG_CONTROL 6
                   (PORTA_OUT d) (PORTA_DIR d) true [] (Wire_tx d) (trace d)).
  set (d' := write_transaction [REG_WDT; 255] d0).
  assert (Hc : wdt_counter d' = 255) by (unfold d'; apply refresh_sets_counter).
  assert (Hg : config_reg d' = 6) by (unfold d'; rewrite refresh_state; reflexivity).
  assert (He' : wdt_expirations d' = 0)
    by (unfold d'; rewrite refresh_state; exact He).
  assert (Ha : alert_line d' = false)
    by (unfold d'; apply refresh_deasserts_alert).
  assert (Hquiet : forall k, (k <= 254)%nat ->
            wdt_expirations (ticks k d') = 0 /\
            PORTA_OUT (ticks k d') = PORTA_OUT d' /\
            trace (ticks k d') = trace d').
  { intros k Hk.
    destruct (quiet_ticks_before_timeout k d') as (Hke & Hko & Hkt);
      [rewrite Hc; lia | rewrite Hc; lia |].
    rewrite Hke, Hko, Hkt, He'. repeat split; reflexivity. }
  destruct (Hquiet 254%nat (Nat.le_refl _)) as (He254 & _ & _).
  assert (Hexp : expires (ticks 254 d') = true).
  { rewrite expires_after_ticks, Hc by (rewrite Hc; unfold byte; lia).
    vm_compute. reflexivity. }
  assert (Hcfg : config_reg (ticks 254 d') = 6).
  { destruct (ticks_frame 254 d') as (_ & Hcf & _). rewrite Hcf. exact Hg. }
  destruct (ladder_from_first_expiration (ticks 254 d') He254 Hexp)
    as (_ & Hal & _ & Hq2 & Hpulse & Hzero & _).
  { rewrite Hcfg. reflexivity. }
  { rewrite Hcfg. reflexivity. }
  rewrite <- (ticks_S 254 d') in Hal, Hq2, Hpulse, Hzero.
  split.
  - intros k Hk. destruct (Hquiet k Hk) as (_ & Hko & Hkt).
    split; [exact Hkt|]. unfold alert_line in *. rewrite Hko. exact Ha.
  - split; [exact Hal|]. split; [|split; [exact Hpulse | exact Hzero]].
    intros k Hk. apply (Hq2 k Hk).
Qed.

Lemma start_then_silence_escalates_witness :
  let d' := device (snd (attiny_wdt_start 0 (mkHost power_on [] []))) in
  alert_line (ticks 255 d') = true /\
  wdt_expirations (ticks 256 (ticks 255 d')) = 0.
Proof.
  cbv zeta.
  destruct (start_then_silence_escalates 0 (mkHost power_on [] []) I I eq_refl)
    as (_ & Hal & _ & _ & Hz).
  split; [exact Hal | exact Hz].
Defined.

(** ** The sysfs attributes *)

Lemma snprintf_bytes_checked :
  forallb
    (fun b =>
       (fst (snprintf_0x02hx PAGE_SIZE b) =? 5) &&
       String.eqb
         (snd (snprintf_0x02hx PAGE_SIZE b))
         (String.String "0"%char
            (String.String "x"%char
               (String.String (hex_digit (b / 16))
                  (String.String (hex_digit (b mod 16))
                     (String.String newline String.EmptyString))))))
    (map Z.of_nat (seq 0 256)) = true.
Proof. vm_compute. reflexivity. Qed.

Lemma snprintf_byte b :
  byte b ->
  snprintf_0x02hx PAGE_SIZE b =
  (5, String.String "0"%char
        (String.String "x"%char
           (String.String (hex_digit (b / 16))
              (String.String (hex_digit (b mod 16))
                 (String.String newline String.EmptyString))))).
Proof.
  intros [Hlo Hhi].
  pose proof snprintf_bytes_checked as H.
  rewrite forallb_forall in H.
  specialize (H b).
  assert (Hin : In b (map Z.of_nat (seq 0 256))).
  { rewrite <- (Z2Nat.id b Hlo). apply in_map, in_seq. lia. }
  apply H in Hin. apply andb_prop in Hin. destruct Hin as [Hn Ht].
  apply Z.eqb_eq in Hn. apply String.eqb_eq in Ht.
  destruct (snprintf_0x02hx PAGE_SIZE b) as [n text].
  cbn [fst snd] in *. subst. reflexivity.
Qed.

(** X21: reading one of the four sysfs attributes (version, control,
    timer, status: registers 0 to 3) on a working bus returns 5 and writes
    the five characters 0x, the two lower-case hexadecimal digits of the
    register byte, and a newline; the byte is 0x10 for version, the chip's
    Configuration for control, its Countdown for timer and 0 for status.
    On the chip the read moves the Register Pointer to that register and
    sends one byte; it changes neither counter, nor Configuration, nor any
    pin: showing an attribute does not refresh the watchdog. *)
Theorem value_show_formats_register (index : Z) (h : host) :
  0 <= index <= 3 -> next_ok (bus h) -> wf (device h) ->
  let b := if index =? 0 then FW_VERSION
           else if index =? 1 then config_reg (device h)
           else if index =? 2 then wdt_counter (device h)
           else 0 in
  fst (attiny_wdt_value_show index h) =
    (5, Some (String.String "0"%char
                (String.String "x"%char
                   (String.String (hex_digit (b / 16))
                      (String.String (hex_digit (b mod 16))
                         (String.String newline String.EmptyString)))))) /\
  device (snd (attiny_wdt_value_show index h)) =
    mkMcu (wdt_counter (device h)) (wdt_expirations (device h)) index
          (config_reg (device h)) (PORTA_OUT (device h))
          (PORTA_DIR (device h)) (SREG_I (device h)) []
          (Wire_tx (device h) ++ [b]) (trace (device h)).
Proof.
  destruct h as [d b l]. cbn [bus device klog]. intros Hi Hok Hwf. cbv zeta.
  set (v := if index =? 0 then FW_VERSION
            else if index =? 1 then config_reg d
            else if index =? 2 then wdt_counter d
            else 0).
  assert (Hv : byte v).
  { destruct Hwf as [Hc _ _ Hg _ _]. unfold v.
    destruct (index =? 0); [unfold byte, FW_VERSION; lia|].
    destruct (index =? 1); [exact Hg|].
    destruct (index =? 2); [exact Hc | unfold byte; lia]. }
  assert (Hix : u8 index = index) by (apply u8_small; unfold byte; lia).
  assert (Hdev : read_request (write_transaction [index] d) =
                 mkMcu (wdt_counter d) (wdt_expirations d) index
                       (config_reg d) (PORTA_OUT d) (PORTA_DIR d) (SREG_I d)
                       [] (Wire_tx d ++ [v]) (trace d)).
  { assert (Hsel : fst (select_tx (write_transaction [index] d)) = v).
    { rewrite select_tx_value, write_addr_only. mcu_unfold. rewrite Hix.
      reflexivity. }
    rewrite read_request_unfold, Hsel, write_addr_only.
    mcu_unfold. rewrite Hix, (u8_small v Hv). reflexivity. }
  unfold attiny_wdt_value_show, regmap_read, hbind.
  assert (Hreg : (REG_STATUS <? index) = false)
    by (apply Z.ltb_ge; unfold REG_STATUS; lia).
  rewrite Hreg.
  assert (Htr : exists b', transfer (mkHost d b l) = (0, mkHost d b' l)).
  { unfold transfer. cbn [bus device klog].
    destruct b as [|[e|] b]; [eexists; reflexivity | destruct Hok
                              | eexists; reflexivity]. }
  destruct Htr as [b' Htr]. rewrite Htr.
  change (0 =? 0) with true. cbv iota.
  unfold on_device, hret. cbn [device bus klog fst snd].
  rewrite Hdev. cbn [Wire_tx]. rewrite last_last.
  change (0 <? 0) with false. cbv iota.
  rewrite (snprintf_byte v Hv). cbn [fst snd device].
  split; reflexivity.
Qed.

Lemma value_show_formats_register_witness :
  fst (attiny_wdt_value_show 2 (mkHost power_on [] [])) =
  (5, Some (String.String "0"%char
              (String.String "x"%char
                 (String.String (hex_digit (wdt_counter power_on / 16))
                    (String.String (hex_digit (wdt_counter power_on mod 16))
                       (String.String newline String.EmptyString)))))).
Proof.
  assert (Hi : 0 <= 2 <= 3) by lia.
  exact (proj1 (value_show_formats_register 2 (mkHost power_on [] [])
                  Hi I power_on_wf)).
Defined.



End DriverProps.
